(** * go-wallex: the error normalizer and the request executor

    A shallow embedding of [errors.go] (parseErrorResponse), of
    [client.go] (assertAuth, Request) and of [types/NumericOrEmpty]
    (UnmarshalJSON), together with the part of Go's [encoding/json],
    [strconv] and [fmt] that these functions call.

    Byte slices and Go strings are both sequences of bytes; they are
    modelled by [string], whose characters are 8-bit. *)

From Stdlib Require Import ZArith Ascii String List Lia Bool.
From Stdlib Require Import DecimalString DecimalFacts DecimalPos.
From stdpp Require Import base gmap strings list fin_maps.

Set Warnings "-register-all".
Local Open Scope string_scope.
Local Open Scope Z_scope.

(** ** Bytes *)

Definition byte_val (c : ascii) : Z := Z.of_N (N_of_ascii c).
Definition byte_of (z : Z) : ascii := ascii_of_N (Z.to_N z).
Definition str1 (c : ascii) : string := String c EmptyString.

Definition dquote : ascii := "034"%char.

(** JSON texts are full of double quotes.  [json_text] lets examples be
    written with single quotes instead: every ['] stands for the byte 0x22. *)
Fixpoint json_text (s : string) : string :=
  match s with
  | EmptyString => EmptyString
  | String c r => String (if Ascii.eqb c "'"%char then dquote else c) (json_text r)
  end.

(** ** encoding/json: syntax *)

Module Json.

(** A JSON value as the decoder sees it.  A number keeps its literal: the
    decoder converts it only once it knows the Go type it is stored into. *)
Inductive value : Type :=
| Null
| Bool (b : bool)
| Number (literal : string)
| Str (s : string)
| Array (elems : list value)
| Object (members : list (string * value)).

Inductive result (A : Type) : Type :=
| Ok (a : A) (rest : string)
| Invalid
| OutOfFuel.
Arguments Ok {A} a rest.
Arguments Invalid {A}.
Arguments OutOfFuel {A}.

(** scanner.go: isSpace *)
Definition isSpace (c : ascii) : bool :=
  let n := byte_val c in (n =? 32) || (n =? 9) || (n =? 13) || (n =? 10).

Fixpoint skip_space (s : string) : string :=
  match s with
  | String c r => if isSpace c then skip_space r else s
  | EmptyString => s
  end.

Definition is_digit (c : ascii) : bool :=
  let n := byte_val c in (48 <=? n) && (n <=? 57).

(** decode.go: getu4 reads one hexadecimal digit this way *)
Definition hex_val (c : ascii) : option Z :=
  let n := byte_val c in
  if (48 <=? n) && (n <=? 57) then Some (n - 48)
  else if (97 <=? n) && (n <=? 102) then Some (n - 97 + 10)
  else if (65 <=? n) && (n <=? 70) then Some (n - 65 + 10)
  else None.

Definition u4 (h1 h2 h3 h4 : ascii) : option Z :=
  match hex_val h1, hex_val h2, hex_val h3, hex_val h4 with
  | Some a, Some b, Some c, Some d => Some (a * 4096 + b * 256 + c * 16 + d)
  | _, _, _, _ => None
  end.

(** unicode/utf8: EncodeRune; surrogates and values past U+10FFFF are
    written as U+FFFD. *)
Definition replacement : string :=
  String (byte_of 239) (String (byte_of 191) (String (byte_of 189) EmptyString)).

Definition EncodeRune (r : Z) : string :=
  if r <? 0 then replacement
  else if r <? 128 then str1 (byte_of r)
  else if r <? 2048 then
    String (byte_of (192 + r / 64)) (str1 (byte_of (128 + r mod 64)))
  else if (1114111 <? r) || ((55296 <=? r) && (r <? 57344)) then replacement
  else if r <? 65536 then
    String (byte_of (224 + r / 4096))
      (String (byte_of (128 + (r / 64) mod 64)) (str1 (byte_of (128 + r mod 64))))
  else
    String (byte_of (240 + r / 262144))
      (String (byte_of (128 + (r / 4096) mod 64))
         (String (byte_of (128 + (r / 64) mod 64)) (str1 (byte_of (128 + r mod 64))))).

(** unicode/utf16: IsSurrogate and DecodeRune *)
Definition IsSurrogate (r : Z) : bool := (55296 <=? r) && (r <? 57344).

Definition DecodeSurrogates (r1 r2 : Z) : option Z :=
  if (55296 <=? r1) && (r1 <? 56320) && (56320 <=? r2) && (r2 <? 57344)
  then Some ((r1 - 55296) * 1024 + (r2 - 56320) + 65536)
  else None.

(** unicode/utf8: the byte ranges DecodeRune accepts *)
Definition cont (c : ascii) : bool :=
  let n := byte_val c in (128 <=? n) && (n <=? 191).

Definition utf8_2 (c1 c2 : ascii) : bool :=
  let a := byte_val c1 in (194 <=? a) && (a <=? 223) && cont c2.

Definition utf8_3 (c1 c2 c3 : ascii) : bool :=
  let a := byte_val c1 in
  let b := byte_val c2 in
  (((a =? 224) && (160 <=? b) && (b <=? 191))
   || ((225 <=? a) && (a <=? 236) && cont c2)
   || ((a =? 237) && (128 <=? b) && (b <=? 159))
   || ((238 <=? a) && (a <=? 239) && cont c2))
  && cont c3.

Definition utf8_4 (c1 c2 c3 c4 : ascii) : bool :=
  let a := byte_val c1 in
  let b := byte_val c2 in
  (((a =? 240) && (144 <=? b) && (b <=? 191))
   || ((241 <=? a) && (a <=? 243) && cont c2)
   || ((a =? 244) && (128 <=? b) && (b <=? 143)))
  && cont c3 && cont c4.

Definition emit (p : string) (k : option (string * string)) : option (string * string) :=
  match k with
  | Some (d, rest) => Some (p ++ d, rest)
  | None => None
  end.

(** What one byte after a backslash stands for (scanner.go: stateInStringEsc,
    decode.go: unquote); [None] for [u], which is handled apart, and for
    every byte that is no escape. *)
Definition escape (e : ascii) : option ascii :=
  let n := byte_val e in
  if (n =? 34) || (n =? 92) || (n =? 47) then Some e
  else if n =? 98 then Some (byte_of 8)
  else if n =? 102 then Some (byte_of 12)
  else if n =? 110 then Some (byte_of 10)
  else if n =? 114 then Some (byte_of 13)
  else if n =? 116 then Some (byte_of 9)
  else None.

(** The text after an opening quote: scans up to the closing quote and
    returns the unquoted string and what follows the literal.  Control bytes
    and bad escapes are syntax errors; bytes that are not UTF-8 and
    surrogate halves that do not pair up become U+FFFD. *)
Fixpoint string_body (s : string) : option (string * string) :=
  match s with
  | EmptyString => None
  | String c r =>
    let n := byte_val c in
    if n =? 34 then Some (EmptyString, r)
    else if n <? 32 then None
    else if n =? 92 then
      match r with
      | EmptyString => None
      | String e r0 =>
        if byte_val e =? 117 then
          match r0 with
          | String h1 (String h2 (String h3 (String h4 r1))) =>
            match u4 h1 h2 h3 h4 with
            | None => None
            | Some rr =>
              if IsSurrogate rr then
                match r1 with
                | String b (String u (String k1 (String k2 (String k3 (String k4 r2))))) =>
                  match (if (byte_val b =? 92) && (byte_val u =? 117)
                         then u4 k1 k2 k3 k4 else None) with
                  | Some rr1 =>
                    match DecodeSurrogates rr rr1 with
                    | Some dec => emit (EncodeRune dec) (string_body r2)
                    | None => emit replacement (string_body r1)
                    end
                  | None => emit replacement (string_body r1)
                  end
                | _ => emit replacement (string_body r1)
                end
              else emit (EncodeRune rr) (string_body r1)
            end
          | _ => None
          end
        else
          match escape e with
          | Some x => emit (str1 x) (string_body r0)
          | None => None
          end
      end
    else if n <? 128 then emit (str1 c) (string_body r)
    else
      match r with
      | String c2 r2 =>
        if utf8_2 c c2 then emit (String c (str1 c2)) (string_body r2)
        else
          match r2 with
          | String c3 r3 =>
            if utf8_3 c c2 c3 then emit (String c (String c2 (str1 c3))) (string_body r3)
            else
              match r3 with
              | String c4 r4 =>
                if utf8_4 c c2 c3 c4
                then emit (String c (String c2 (String c3 (str1 c4)))) (string_body r4)
                else emit replacement (string_body r)
              | EmptyString => emit replacement (string_body r)
              end
          | EmptyString => emit replacement (string_body r)
          end
      | EmptyString => emit replacement (string_body r)
      end
  end.

(** The longest run of digits at the head of [s], and the rest. *)
Fixpoint digits (s : string) : string * string :=
  match s with
  | String c r =>
    if is_digit c then let (d, rest) := digits r in (String c d, rest)
    else (EmptyString, s)
  | EmptyString => (EmptyString, s)
  end.

(** scanner.go: stateNeg, state0, state1, stateDot, stateE, stateESign *)
Definition scan_int (s : string) : option (string * string) :=
  match s with
  | String c r =>
    if byte_val c =? 48 then Some (str1 c, r)
    else if is_digit c then let (d, rest) := digits r in Some (String c d, rest)
    else None
  | EmptyString => None
  end.

Definition scan_frac (s : string) : option (string * string) :=
  match s with
  | String c r =>
    if byte_val c =? 46 then
      let (d, rest) := digits r in
      match d with
      | EmptyString => None
      | _ => Some (String c d, rest)
      end
    else Some (EmptyString, s)
  | EmptyString => Some (EmptyString, s)
  end.

Definition scan_exp (s : string) : option (string * string) :=
  match s with
  | String c r =>
    if (byte_val c =? 101) || (byte_val c =? 69) then
      let (sg, r1) :=
        match r with
        | String g r' =>
          if (byte_val g =? 43) || (byte_val g =? 45) then (str1 g, r') else (EmptyString, r)
        | EmptyString => (EmptyString, r)
        end in
      let (d, rest) := digits r1 in
      match d with
      | EmptyString => None
      | _ => Some (String c (sg ++ d), rest)
      end
    else Some (EmptyString, s)
  | EmptyString => Some (EmptyString, s)
  end.

Definition scan_number (s : string) : option (string * string) :=
  let (sg, s1) :=
    match s with
    | String c r => if byte_val c =? 45 then (str1 c, r) else (EmptyString, s)
    | EmptyString => (EmptyString, s)
    end in
  match scan_int s1 with
  | None => None
  | Some (i, s2) =>
    match scan_frac s2 with
    | None => None
    | Some (f, s3) =>
      match scan_exp s3 with
      | None => None
      | Some (e, s4) => Some (sg ++ i ++ f ++ e, s4)
      end
    end
  end.

(** [strip p s]: what follows the prefix [p] of [s] *)
Fixpoint strip (p s : string) : option string :=
  match p, s with
  | EmptyString, _ => Some s
  | String a p', String b s' => if Ascii.eqb a b then strip p' s' else None
  | String _ _, EmptyString => None
  end.

(** scanner.go: maxNestingDepth *)
Definition maxNestingDepth : Z := 10000.

(** One value, its elements or its members.  [depth] counts the arrays and
    objects that are open; [fuel] only makes the recursion structural (see
    [parse] for the amount that is always enough). *)
Fixpoint parse_value (fuel : nat) (depth : Z) (s : string) : result value :=
  match fuel with
  | O => OutOfFuel
  | S fuel =>
    match skip_space s with
    | EmptyString => Invalid
    | String c r =>
      let n := byte_val c in
      if n =? 123 then
        if maxNestingDepth <=? depth then Invalid
        else
          match skip_space r with
          | EmptyString => Invalid
          | String c1 r1 =>
            if byte_val c1 =? 125 then Ok (Object []) r1
            else
              match parse_members fuel (depth + 1) (String c1 r1) with
              | Ok ms rest => Ok (Object ms) rest
              | Invalid => Invalid
              | OutOfFuel => OutOfFuel
              end
          end
      else if n =? 91 then
        if maxNestingDepth <=? depth then Invalid
        else
          match skip_space r with
          | EmptyString => Invalid
          | String c1 r1 =>
            if byte_val c1 =? 93 then Ok (Array []) r1
            else
              match parse_elems fuel (depth + 1) (String c1 r1) with
              | Ok vs rest => Ok (Array vs) rest
              | Invalid => Invalid
              | OutOfFuel => OutOfFuel
              end
          end
      else if n =? 34 then
        match string_body r with
        | Some (str, rest) => Ok (Str str) rest
        | None => Invalid
        end
      else if (n =? 45) || is_digit c then
        match scan_number (String c r) with
        | Some (lit, rest) => Ok (Number lit) rest
        | None => Invalid
        end
      else if n =? 116 then
        match strip "rue" r with Some rest => Ok (Bool true) rest | None => Invalid end
      else if n =? 102 then
        match strip "alse" r with Some rest => Ok (Bool false) rest | None => Invalid end
      else if n =? 110 then
        match strip "ull" r with Some rest => Ok Null rest | None => Invalid end
      else Invalid
    end
  end
with parse_elems (fuel : nat) (depth : Z) (s : string) : result (list value) :=
  match fuel with
  | O => OutOfFuel
  | S fuel =>
    match parse_value fuel depth s with
    | Ok v r =>
      match skip_space r with
      | EmptyString => Invalid
      | String c r1 =>
        if byte_val c =? 44 then
          match parse_elems fuel depth r1 with
          | Ok vs rest => Ok (v :: vs) rest
          | Invalid => Invalid
          | OutOfFuel => OutOfFuel
          end
        else if byte_val c =? 93 then Ok [v] r1
        else Invalid
      end
    | Invalid => Invalid
    | OutOfFuel => OutOfFuel
    end
  end
with parse_members (fuel : nat) (depth : Z) (s : string) : result (list (string * value)) :=
  match fuel with
  | O => OutOfFuel
  | S fuel =>
    match skip_space s with
    | EmptyString => Invalid
    | String q r =>
      if byte_val q =? 34 then
        match string_body r with
        | None => Invalid
        | Some (k, r1) =>
          match skip_space r1 with
          | EmptyString => Invalid
          | String c r2 =>
            if byte_val c =? 58 then
              match parse_value fuel depth r2 with
              | Ok v r3 =>
                match skip_space r3 with
                | EmptyString => Invalid
                | String c' r4 =>
                  if byte_val c' =? 44 then
                    match parse_members fuel depth r4 with
                    | Ok ms rest => Ok ((k, v) :: ms) rest
                    | Invalid => Invalid
                    | OutOfFuel => OutOfFuel
                    end
                  else if byte_val c' =? 125 then Ok [(k, v)] r4
                  else Invalid
                end
              | Invalid => Invalid
              | OutOfFuel => OutOfFuel
              end
            else Invalid
          end
        end
      else Invalid
    end
  end.

(** decode.go: checkValid followed by the scan of the one top-level value.
    [None] is a SyntaxError: Unmarshal then leaves its target untouched. *)
Definition parse (data : string) : option value :=
  match parse_value (2 * String.length data + 1) 0 data with
  | Ok v rest =>
    match skip_space rest with
    | EmptyString => Some v
    | String _ _ => None
    end
  | Invalid => None
  | OutOfFuel => None
  end.

End Json.

(** ** strconv *)

(** strconv.Itoa, and [%d] of fmt *)
Definition Itoa (z : Z) : string := NilZero.string_of_int (Z.to_int z).

Fixpoint all_digits (s : string) : bool :=
  match s with
  | EmptyString => true
  | String c r => Json.is_digit c && all_digits r
  end.

Fixpoint digits_value (acc : Z) (s : string) : Z :=
  match s with
  | EmptyString => acc
  | String c r => digits_value (acc * 10 + (byte_val c - 48)) r
  end.

(** strconv.ParseInt (s, 10, bitSize): an optional sign, then one digit at
    least and digits only; a value outside the signed range of [bitSize]
    bits is an error. *)
Definition ParseInt (s : string) (bitSize : Z) : option Z :=
  let (neg, ds) :=
    match s with
    | String c r =>
      if byte_val c =? 45 then (true, r)
      else if byte_val c =? 43 then (false, r)
      else (false, s)
    | EmptyString => (false, s)
    end in
  match ds with
  | EmptyString => None
  | String _ _ =>
    if all_digits ds then
      let v := digits_value 0 ds in
      let z := if neg then - v else v in
      if (- 2 ^ (bitSize - 1) <=? z) && (z <? 2 ^ (bitSize - 1)) then Some z else None
    else None
  end.

Arguments ParseInt : simpl never.

(** ** The values of type [any] that encoding/json builds *)

Inductive any : Type :=
| Nil
| ABool (b : bool)
| AFloat64 (literal : string)
| AString (s : string)
| ASlice (items : list any)
| AMap (entries : list (string * any)).

(** m[k] = v on a map[string]any kept as a list sorted by key, the order
    in which fmt prints a map. *)
Fixpoint store (k : string) (v : any) (m : list (string * any)) : list (string * any) :=
  match m with
  | [] => [(k, v)]
  | (k', v') :: m' =>
    match String.compare k k' with
    | Lt => (k, v) :: m
    | Eq => (k, v) :: m'
    | Gt => (k', v') :: store k v m'
    end
  end.

(** decode.go: valueInterface, arrayInterface, objectInterface and
    literalInterface.  A number becomes the float64 that strconv.ParseFloat
    returns for its literal, written [AFloat64 literal]; where ParseFloat
    reports a range error the decoder stores nil in its place, which
    [AFloat64] stands for as well (see [fmt_number]). *)
Fixpoint valueInterface (v : Json.value) : any :=
  match v with
  | Json.Null => Nil
  | Json.Bool b => ABool b
  | Json.Number lit => AFloat64 lit
  | Json.Str s => AString s
  | Json.Array vs => ASlice (List.map valueInterface vs)
  | Json.Object ms =>
    AMap (fold_left (fun m kv => store (fst kv) (valueInterface (snd kv)) m) ms [])
  end.

(** json.Unmarshal(data, &raw) with raw an empty map[string]any; the error
    is dropped by the caller.  A syntax error, a top-level null and a
    top-level value that is no object all leave the map empty; in an object
    a later member replaces an earlier one of the same key. *)
Definition Unmarshal_map (data : string) : gmap string any :=
  match Json.parse data with
  | Some (Json.Object ms) =>
    fold_left (fun (m : gmap string any) kv => <[fst kv := valueInterface (snd kv)]> m) ms ∅
  | _ => ∅
  end.

(** ** types.ErrorResponse and its decoding *)

(** types.BaseResponse, embedded in types.ErrorResponse.  Result is a
    json.RawMessage that parseErrorResponse never reads; it is kept as the
    syntax of the member. *)
Record ErrorResponse : Type := {
  er_Message : string;
  er_Success : bool;
  er_Result : option Json.value;
  er_Code : Z
}.

Definition ErrorResponse_zero : ErrorResponse :=
  {| er_Message := ""; er_Success := false; er_Result := None; er_Code := 0 |}.

(** encoding/json fold.go: foldName.  ASCII letters go to upper case; the
    long s (U+017F) folds to S and the Kelvin sign (U+212A) to K.  Every
    other rune folds to a rune that is not ASCII, and is left as it is here:
    field names are ASCII, so this does not change what matches. *)
Fixpoint foldName (s : string) : string :=
  match s with
  | EmptyString => EmptyString
  | String c r =>
    let n := byte_val c in
    if (97 <=? n) && (n <=? 122) then String (byte_of (n - 32)) (foldName r)
    else
      match r with
      | String c2 r2 =>
        if (n =? 197) && (byte_val c2 =? 191) then String "S"%char (foldName r2)
        else
          match r2 with
          | String c3 r3 =>
            if (n =? 226) && (byte_val c2 =? 132) && (byte_val c3 =? 170)
            then String "K"%char (foldName r3)
            else String c (foldName r)
          | EmptyString => String c (foldName r)
          end
      | EmptyString => String c (foldName r)
      end
  end.

(** decode.go: object, for a struct.  The field is found by its folded
    name; a value of the wrong kind is reported (and the report dropped by
    the caller), the field keeps what it had and decoding goes on; null
    leaves a field as it is. *)
Definition set_field (r : ErrorResponse) (kv : string * Json.value) : ErrorResponse :=
  let (key, v) := kv in
  let name := foldName key in
  if String.eqb name "MESSAGE" then
    match v with
    | Json.Str s =>
      {| er_Message := s; er_Success := er_Success r;
         er_Result := er_Result r; er_Code := er_Code r |}
    | _ => r
    end
  else if String.eqb name "SUCCESS" then
    match v with
    | Json.Bool b =>
      {| er_Message := er_Message r; er_Success := b;
         er_Result := er_Result r; er_Code := er_Code r |}
    | _ => r
    end
  else if String.eqb name "RESULT" then
    {| er_Message := er_Message r; er_Success := er_Success r;
       er_Result := Some v; er_Code := er_Code r |}
  else if String.eqb name "CODE" then
    match v with
    | Json.Number lit =>
      match ParseInt lit 64 with
      | Some n =>
        if (-32768 <=? n) && (n <=? 32767) then
          {| er_Message := er_Message r; er_Success := er_Success r;
             er_Result := er_Result r; er_Code := n |}
        else r
      | None => r
      end
    | _ => r
    end
  else r.

(** json.Unmarshal(data, &base) with base a zero types.ErrorResponse *)
Definition Unmarshal_ErrorResponse (data : string) : ErrorResponse :=
  match Json.parse data with
  | Some (Json.Object ms) => fold_left set_field ms ErrorResponse_zero
  | _ => ErrorResponse_zero
  end.

(** ** errors.go: the error types *)

(** A Go [error] is an interface; a struct that holds one (GoWallexError.Err)
    can hold any of the program's own error types again.  The structs take
    the type of errors as a parameter and [error] ties the knot. *)
Record GoWallexError_ (E : Type) : Type := {
  gw_Message : string;
  gw_Err : option E
}.
Arguments gw_Message {E} _.
Arguments gw_Err {E} _.

Record RequestError_ (E : Type) : Type := {
  re_GoWallexError : GoWallexError_ E;
  re_Operation : string
}.
Arguments re_GoWallexError {E} _.
Arguments re_Operation {E} _.

(** Result is a json.RawMessage: a byte slice, nil until it is assigned. *)
Record APIError_ (E : Type) : Type := {
  api_GoWallexError : GoWallexError_ E;
  api_StatusCode : Z;
  api_Message : string;
  api_Success : bool;
  api_Code : Z;
  api_Result : option string;
  api_Fields : gmap string (list string)
}.
Arguments api_GoWallexError {E} _.
Arguments api_StatusCode {E} _.
Arguments api_Message {E} _.
Arguments api_Success {E} _.
Arguments api_Code {E} _.
Arguments api_Result {E} _.
Arguments api_Fields {E} _.

Inductive error : Type :=
| LibraryError (text : string)
| GoWallexErrorPtr (e : GoWallexError_ error)
| RequestErrorPtr (e : RequestError_ error)
| APIErrorPtr (e : APIError_ error).

Abbreviation GoWallexError := (GoWallexError_ error).
Abbreviation RequestError := (RequestError_ error).
Abbreviation APIError := (APIError_ error).

Definition set_Message (e : APIError) (m : string) : APIError :=
  {| api_GoWallexError := api_GoWallexError e; api_StatusCode := api_StatusCode e;
     api_Message := m; api_Success := api_Success e; api_Code := api_Code e;
     api_Result := api_Result e; api_Fields := api_Fields e |}.

Definition set_Code (e : APIError) (c : Z) : APIError :=
  {| api_GoWallexError := api_GoWallexError e; api_StatusCode := api_StatusCode e;
     api_Message := api_Message e; api_Success := api_Success e; api_Code := c;
     api_Result := api_Result e; api_Fields := api_Fields e |}.

Definition set_Result (e : APIError) (r : string) : APIError :=
  {| api_GoWallexError := api_GoWallexError e; api_StatusCode := api_StatusCode e;
     api_Message := api_Message e; api_Success := api_Success e; api_Code := api_Code e;
     api_Result := Some r; api_Fields := api_Fields e |}.

(** apiErr.Fields[k] = v *)
Definition set_Field (e : APIError) (k : string) (v : list string) : APIError :=
  {| api_GoWallexError := api_GoWallexError e; api_StatusCode := api_StatusCode e;
     api_Message := api_Message e; api_Success := api_Success e; api_Code := api_Code e;
     api_Result := api_Result e; api_Fields := <[k := v]> (api_Fields e) |}.

(** apiErr.GoWallexError.Message = m *)
Definition set_GoWallexError_Message (e : APIError) (m : string) : APIError :=
  {| api_GoWallexError := {| gw_Message := m; gw_Err := gw_Err (api_GoWallexError e) |};
     api_StatusCode := api_StatusCode e;
     api_Message := api_Message e; api_Success := api_Success e; api_Code := api_Code e;
     api_Result := api_Result e; api_Fields := api_Fields e |}.

(** ** fmt: the verb %v on the values the decoder builds *)

Fixpoint join_space (l : list string) : string :=
  match l with
  | [] => ""
  | [x] => x
  | x :: r => x ++ " " ++ join_space r
  end.

Fixpoint strip_zeros_rev (s : list ascii) : list ascii :=
  match s with
  | c :: r => if byte_val c =? 48 then strip_zeros_rev r else s
  | [] => []
  end.

(** The digits of [ds] without the zeros that end it. *)
Definition significant (ds : string) : string :=
  string_of_list_ascii (rev (strip_zeros_rev (rev (list_ascii_of_string ds)))).

(** strconv ftoa.go, %e: the exponent has two digits at least. *)
Definition fmt_exponent (e : Z) : string :=
  (if e <? 10 then "e+0" else "e+") ++ Itoa e.

(** [%v] of a float64 whose value is the integer written [ds] (digits of a
    JSON integer literal, so without leading zero unless it is 0), with at
    most fifteen digits: such a value is exact in float64 and its shortest
    digits are [significant ds].  [%v] is [%g] with the shortest precision:
    exponent form from an exponent of 21 on for the encoder of
    encoding/json, but from 6 on here (strconv ftoa.go: eprec = 6 when
    shortest), so 1000000 prints as 1e+06. *)
Definition fmt_g_integer (neg : bool) (ds : string) : string :=
  let sign := if neg then "-" else "" in
  if String.eqb ds "0" then sign ++ "0"
  else
    let dp := Z.of_nat (String.length ds) in
    if 6 <=? dp - 1 then
      match significant ds with
      | String d EmptyString => sign ++ str1 d ++ fmt_exponent (dp - 1)
      | String d more => sign ++ str1 d ++ "." ++ more ++ fmt_exponent (dp - 1)
      | EmptyString => sign ++ "0" ++ fmt_exponent 0
      end
    else sign ++ ds.

Section Normalizer.

(** [%v] of the value that the decoder stores for a JSON number whose
    literal has a fraction, an exponent or more than fifteen digits: the
    float64 nearest to the literal in its shortest [%g] form, or [<nil>] where
    the literal is out of the range of float64.  Rounding to binary floating
    point is not modelled; every result below holds whatever this function
    is. *)
Variable fmt_float_literal : string -> string.

Definition fmt_number (lit : string) : string :=
  let (neg, ds) :=
    match lit with
    | String c r => if byte_val c =? 45 then (true, r) else (false, lit)
    | EmptyString => (false, lit)
    end in
  if all_digits ds && (1 <=? Z.of_nat (String.length ds))
     && (Z.of_nat (String.length ds) <=? 15)
  then fmt_g_integer neg ds
  else fmt_float_literal lit.

(** fmt.Sprintf("%v", v); a map prints its keys in increasing order, which
    is the order [store] keeps. *)
Fixpoint Sprint_v (v : any) : string :=
  match v with
  | Nil => "<nil>"
  | ABool b => if b then "true" else "false"
  | AFloat64 lit => fmt_number lit
  | AString s => s
  | ASlice items => "[" ++ join_space (List.map Sprint_v items) ++ "]"
  | AMap entries =>
    "map[" ++ join_space (List.map (fun kv : string * any =>
                                      let (k, x) := kv in k ++ ":" ++ Sprint_v x) entries)
           ++ "]"
  end.

(** ** errors.go: parseErrorResponse *)

(** The body of [for k, v := range raw] (lines 128 to 147). *)
Definition visit (apiErr : APIError) (kv : string * any) : APIError :=
  let (k, v) := kv in
  match v with
  | AString val =>
    let apiErr := set_Field apiErr k [val] in
    if String.eqb k "detail" then
      let apiErr := set_Result apiErr val in
      if String.eqb (api_Message apiErr) "" then set_Message apiErr val else apiErr
    else apiErr
  | ASlice val => set_Field apiErr k (List.map Sprint_v val)
  | _ => set_Field apiErr k [Sprint_v v]
  end.

(** What the loop stores in Fields for a value of [raw]. *)
Definition recorded (v : any) : list string :=
  match v with
  | AString val => [val]
  | ASlice val => List.map Sprint_v val
  | _ => [Sprint_v v]
  end.

(** parseErrorResponse once both decodes are done: [base] is what the first
    left in the ErrorResponse and [entries] the entries of [raw] in the
    order in which [range] yields them.  [merge] is lines 103 to 148, the two
    passes; [normalize] adds the fallback and the copy of lines 150 to 156. *)
Definition merge (statusCode : Z) (base : ErrorResponse)
    (entries : list (string * any)) : APIError :=
  let apiErr : APIError :=
    {| api_GoWallexError := {| gw_Message := ""; gw_Err := None |};
       api_StatusCode := statusCode; api_Message := ""; api_Success := false;
       api_Code := 0; api_Result := None; api_Fields := ∅ |} in
  let apiErr :=
    if negb (String.eqb (er_Message base) "") then set_Message apiErr (er_Message base)
    else apiErr in
  let apiErr :=
    if 0 <? er_Code base
    then set_Field (set_Code apiErr (er_Code base)) "code" [Itoa (er_Code base)]
    else apiErr in
  let apiErr :=
    if negb (String.eqb (er_Message base) "")
    then set_Field (set_Message apiErr (er_Message base)) "message" [er_Message base]
    else apiErr in
  fold_left visit entries apiErr.

Definition synthesized (statusCode : Z) : string :=
  "Wallex API error (" ++ Itoa statusCode ++ ")".

Definition normalize (statusCode : Z) (base : ErrorResponse)
    (entries : list (string * any)) : APIError :=
  let apiErr := merge statusCode base entries in
  let apiErr :=
    if String.eqb (api_Message apiErr) ""
    then set_Message apiErr (synthesized statusCode)
    else apiErr in
  set_GoWallexError_Message apiErr (api_Message apiErr).

(** Go leaves the order of [range] over a map open; [map_to_list] is one
    such order; that the choice does not matter is proved below. *)
Definition parseErrorResponse (statusCode : Z) (respBody : string) : APIError :=
  normalize statusCode (Unmarshal_ErrorResponse respBody)
            (map_to_list (Unmarshal_map respBody)).

End Normalizer.


(** ** client.go: the request executor *)

(** What Request hands to the transport.  net/http stores a header under
    its canonical key; the keys are kept here as the code writes them. *)
Record HttpRequest : Type := {
  req_Method : string;
  req_URL : string;
  req_Body : string;
  req_Header : gmap string string
}.

Definition Header_Set (req : HttpRequest) (k v : string) : HttpRequest :=
  {| req_Method := req_Method req; req_URL := req_URL req; req_Body := req_Body req;
     req_Header := <[k := v]> (req_Header req) |}.

(** A response: its status, and what io.ReadAll returns for its body. *)
Record HttpResponse : Type := {
  resp_StatusCode : Z;
  resp_Body : string + error
}.

(** Client.HttpClient is modelled by its method Do. *)
Record Client : Type := {
  HttpClient : HttpRequest -> HttpResponse + error;
  BaseUrl : string;
  Version : string;
  ApiKey : string
}.

(** assertAuth (lines 102 to 110) *)
Definition assertAuth (client : Client) : option error :=
  if String.eqb (ApiKey client) ""
  then Some (GoWallexErrorPtr {| gw_Message := "API Key is empty"; gw_Err := None |})
  else None.

(** What a call of Request leaves behind: the error it returns, the
    requests the transport was given, in order, and the destination after
    the call. *)
Record Outcome (D : Type) : Type := {
  out_err : option error;
  out_calls : list HttpRequest;
  out_result : option D
}.
Arguments out_err {D} _.
Arguments out_calls {D} _.
Arguments out_result {D} _.

Definition mkRequestError (message : string) (err : error) (operation : string) : error :=
  RequestErrorPtr
    {| re_GoWallexError := {| gw_Message := message; gw_Err := Some err |};
       re_Operation := operation |}.

Section Executor.

Variable fmt_float_literal : string -> string.

(** The payloads a caller passes as [body], with the two encoders of
    the libraries: utils.StructToURLParams and json.Marshal. *)
Variable B : Type.
Variable StructToURLParams : B -> string + error.
Variable Marshal : B -> string + error.

(** http.NewRequest refuses some methods and URLs; otherwise the request it
    builds holds what it was given. *)
Variable NewRequest_error : string -> string -> option error.

(** The destinations a caller passes as [result], with json.Unmarshal into
    one of them. *)
Variable D : Type.
Variable Unmarshal : string -> D -> D * option error.

Definition NewRequest (method url body : string) : HttpRequest + error :=
  match NewRequest_error method url with
  | Some err => inr err
  | None =>
    inl {| req_Method := method; req_URL := url; req_Body := body; req_Header := ∅ |}
  end.

(** Lines 150 to 164: the query string of a GET. *)
Definition prepare_parameters (method url : string) (body : option B) : string + error :=
  if String.eqb method "GET" then
    match body with
    | Some b =>
      match StructToURLParams b with
      | inl urlParams => inl (url ++ "?" ++ urlParams)
      | inr err =>
        inr (mkRequestError "failed to convert struct to URL params" err
                            "preparing request parameters")
      end
    | None => inl url
    end
  else inl url.

(** Lines 166 to 179: the body of a POST; reqBody stays nil otherwise, and
    bytes.NewBuffer(nil) is the empty buffer. *)
Definition prepare_body (method : string) (body : option B) : string + error :=
  if String.eqb method "POST" then
    match body with
    | Some b =>
      match Marshal b with
      | inl reqBody => inl reqBody
      | inr err =>
        inr (mkRequestError "failed to marshal request body" err "preparing request body")
      end
    | None => inl ""
    end
  else inl "".

(** Lines 194 to 203 *)
Definition attach_credential (c : Client) (auth : bool) (req : HttpRequest)
    : HttpRequest + error :=
  if auth then
    match assertAuth c with
    | Some err =>
      inr (GoWallexErrorPtr
             {| gw_Message := "authentication validation failed"; gw_Err := Some err |})
    | None => inl (Header_Set req "X-API-Key" (ApiKey c))
    end
  else inl req.

Definition returns (err : option error) (calls : list HttpRequest) (result : option D)
    : Outcome D :=
  {| out_err := err; out_calls := calls; out_result := result |}.

(** Client.Request (lines 146 to 247) *)
Definition Request (c : Client) (method url : string) (auth : bool)
    (body : option B) (result : option D) : Outcome D :=
  match prepare_parameters method url body with
  | inr err => returns (Some err) [] result
  | inl url =>
    match prepare_body method body with
    | inr err => returns (Some err) [] result
    | inl reqBody =>
      match NewRequest method url reqBody with
      | inr err =>
        returns (Some (mkRequestError "failed to create request" err "creating request"))
                [] result
      | inl req =>
        let req := Header_Set req "Content-Type" "application/json" in
        match attach_credential c auth req with
        | inr err => returns (Some err) [] result
        | inl req =>
          match HttpClient c req with
          | inr err =>
            returns (Some (mkRequestError "failed to send request" err "sending request"))
                    [req] result
          | inl resp =>
            match resp_Body resp with
            | inr err =>
              returns (Some (mkRequestError "failed to read response body" err
                                            "reading response"))
                      [req] result
            | inl respBody =>
              if (resp_StatusCode resp <? 200) || (300 <=? resp_StatusCode resp) then
                returns (Some (APIErrorPtr
                                 (parseErrorResponse fmt_float_literal
                                                     (resp_StatusCode resp) respBody)))
                        [req] result
              else
                match result with
                | Some dst =>
                  match Unmarshal respBody dst with
                  | (dst', Some err) =>
                    returns (Some (mkRequestError "failed to unmarshal response" err
                                                  "parsing response"))
                            [req] (Some dst')
                  | (dst', None) => returns None [req] (Some dst')
                  end
                | None => returns None [req] None
                end
            end
          end
        end
      end
    end
  end.

End Executor.

(** ** types: NumericOrEmpty *)

Section NumericOrEmpty.

(** float64 and strconv.ParseFloat (s, 64); [None] is a syntax or a range
    error.  Binary floating point is not modelled: the results hold for
    every type of numbers and every parser. *)
Variable float64 : Type.
Variable zero : float64.
Variable ParseFloat : string -> option float64.

(** json.Unmarshal(data, &num) for a float64: null leaves it as it is. *)
Definition Unmarshal_float64 (data : string) (num : float64) : float64 * option error :=
  match Json.parse data with
  | None => (num, Some (LibraryError "json: syntax error"))
  | Some Json.Null => (num, None)
  | Some (Json.Number lit) =>
    match ParseFloat lit with
    | Some f => (f, None)
    | None => (num, Some (LibraryError "json: cannot unmarshal number"))
    end
  | Some _ => (num, Some (LibraryError "json: cannot unmarshal into float64"))
  end.

(** json.Unmarshal(data, &s) for a string *)
Definition Unmarshal_string (data : string) (s : string) : string * option error :=
  match Json.parse data with
  | None => (s, Some (LibraryError "json: syntax error"))
  | Some Json.Null => (s, None)
  | Some (Json.Str x) => (x, None)
  | Some _ => (s, Some (LibraryError "json: cannot unmarshal into string"))
  end.

(** NumericOrEmpty.UnmarshalJSON: the value of [*n] after the call and the
    error returned; [n] is the value before. *)
Definition UnmarshalJSON (n : float64) (data : string) : float64 * option error :=
  match Unmarshal_float64 data zero with
  | (num, None) => (num, None)
  | (_, Some _) =>
    match Unmarshal_string data "" with
    | (s, None) =>
      if String.eqb s "-" then (zero, None)
      else
        match ParseFloat s with
        | Some parsed => (parsed, None)
        | None => (zero, None)
        end
    | (_, Some _) => (zero, None)
    end
  end.

End NumericOrEmpty.

(** ** errors.go: Error and Unwrap *)

(** GoWallexError.Error (lines 16 to 21), with the text of the wrapped
    error taken by [text]: [%v] prints an error as its method Error does. *)
Definition GoWallexError_Error {E : Type} (text : E -> string) (e : GoWallexError_ E)
    : string :=
  match e with
  | {| gw_Message := m; gw_Err := Some err |} => m ++ ": " ++ text err
  | {| gw_Message := m; gw_Err := None |} => m
  end.

(** GoWallexError.Unwrap (line 23) *)
Definition GoWallexError_Unwrap {E : Type} (e : GoWallexError_ E) : option E := gw_Err e.

(** err.Error() for the errors of the program.  RequestError and APIError
    embed a GoWallexError and have its methods; an error of a library has
    the text it was made with. *)
Fixpoint Error (e : error) : string :=
  match e with
  | LibraryError text => text
  | GoWallexErrorPtr g => GoWallexError_Error Error g
  | RequestErrorPtr r =>
    match r with
    | {| re_GoWallexError := g; re_Operation := _ |} => GoWallexError_Error Error g
    end
  | APIErrorPtr a =>
    match a with
    | {| api_GoWallexError := g; api_StatusCode := _; api_Message := _;
         api_Success := _; api_Code := _; api_Result := _; api_Fields := _ |} =>
      GoWallexError_Error Error g
    end
  end.

(** ** client.go: NewClient, createApiURI, ApiRequest and the endpoints *)

(** the constant BaseUrl (line 18) *)
Definition BaseUrl_const : string := "https://api.wallex.ir".

(** ClientOptions; a nil HttpClient is [None]. *)
Record ClientOptions : Type := {
  opt_HttpClient : option (HttpRequest -> HttpResponse + error);
  opt_Timeout : Z;
  opt_BaseUrl : string;
  opt_Version : string;
  opt_ApiKey : string
}.

(** types.CreateOrderParams and types.UserTradesParams (spotOrder.go) *)
Record CreateOrderParams : Type := {
  cop_Symbol : string;
  cop_Type : string;
  cop_Side : string;
  cop_Price : string;
  cop_Quantity : string;
  cop_ClientOrderId : string
}.

Record UserTradesParams : Type := {
  utp_Symbol : string;
  utp_Side : string
}.

(** What a call of an endpoint leaves behind: the pointer and the error it
    returns, and the requests the transport was given. *)
Record Reply (T : Type) : Type := {
  rp_result : option T;
  rp_err : option error;
  rp_calls : list HttpRequest
}.
Arguments rp_result {T} _.
Arguments rp_err {T} _.
Arguments rp_calls {T} _.

(** The local variable [var x *T] whose address was passed as [result],
    read after the call. *)
Definition pointee {T : Type} (result : option (option T)) : option T :=
  match result with
  | Some x => x
  | None => None
  end.

Section Endpoints.

Variable fmt_float_literal : string -> string.

(** The library functions that take an [interface{}]: one function for
    every type of argument. *)
Variable StructToURLParams : forall B : Type, B -> string + error.
Variable Marshal : forall B : Type, B -> string + error.
Variable NewRequest_error : string -> string -> option error.
Variable Unmarshal : forall D : Type, string -> D -> D * option error.

(** &http.Client{Timeout: d}, the client of the standard library *)
Variable http_Client : Z -> HttpRequest -> HttpResponse + error.

(** The response types of package types; only their decoding matters here. *)
Variables MarketInformation Depth AllDepths Trades Wallets : Type.
Variables BaseOrderResponse CancelOrderResponse OpenOrdersResponse UserTradesResponse : Type.

(** NewClient (lines 77 to 96).  Version is not among the fields that
    are set; HttpClient is set on either branch of the last test. *)
Definition NewClient (opts : ClientOptions) : Client * option error :=
  let baseUrl :=
    if negb (String.eqb (opt_BaseUrl opts) "") then opt_BaseUrl opts else BaseUrl_const in
  let httpClient :=
    match opt_HttpClient opts with
    | Some h => h
    | None => http_Client (opt_Timeout opts)
    end in
  ({| HttpClient := httpClient; BaseUrl := baseUrl; Version := "";
      ApiKey := opt_ApiKey opts |}, None).

(** createApiURI (lines 122 to 124) *)
Definition createApiURI (c : Client) (endpoint version : string) : string :=
  BaseUrl c ++ "/" ++ version ++ endpoint.

(** ApiRequest (lines 260 to 263) *)
Definition ApiRequest {B D : Type} (c : Client) (method endpoint version : string)
    (auth : bool) (body : option B) (result : option D) : Outcome D :=
  let url := createApiURI c endpoint version in
  Request fmt_float_literal B (StructToURLParams B) (Marshal B) NewRequest_error
          D (Unmarshal D) c method url auth body result.

(** The three lines that end every endpoint: nil and the error, or the
    pointer and nil. *)
Definition reply_of {T : Type} (out : Outcome (option T)) : Reply T :=
  match out_err out with
  | Some err => {| rp_result := None; rp_err := Some err; rp_calls := out_calls out |}
  | None =>
    {| rp_result := pointee (out_result out); rp_err := None; rp_calls := out_calls out |}
  end.

(** A nil [body]. *)
Definition no_body : option unit := None.

Definition GetMarketsInfo (c : Client) : Reply MarketInformation :=
  reply_of (ApiRequest c "GET" "/markets" "v1" false no_body (Some None)).

Definition GetOrderBook (c : Client) (symbol : string) : Reply Depth :=
  reply_of (ApiRequest c "GET" ("/depth?symbol=" ++ symbol) "v1" false no_body (Some None)).

Definition GetAllOrderBooks (c : Client) : Reply AllDepths :=
  reply_of (ApiRequest c "GET" "/depth/all" "v2" false no_body (Some None)).

Definition GetRecentTrades (c : Client) (symbol : string) : Reply Trades :=
  reply_of (ApiRequest c "GET" ("/trades?symbol=" ++ symbol) "v1" false no_body (Some None)).

Definition GetWallets (c : Client) : Reply Wallets :=
  reply_of (ApiRequest c "GET" "/account/balances" "v1" true no_body (Some None)).

Definition CreateOrder (c : Client) (params : CreateOrderParams) : Reply BaseOrderResponse :=
  reply_of (ApiRequest c "POST" "/account/orders" "v1" true (Some params) (Some None)).

Definition CancelOrder (c : Client) (clientOrderId : string) : Reply CancelOrderResponse :=
  reply_of (ApiRequest c "DELETE" ("/account/orders?clientOrderId=" ++ clientOrderId) "v1"
                       true no_body (Some None)).

Definition GetOpenOrders (c : Client) (symbol : string) : Reply OpenOrdersResponse :=
  let endPoint := "/account/openOrders" in
  let endPoint :=
    if negb (String.eqb symbol "") then endPoint ++ "?symbol=" ++ symbol else endPoint in
  reply_of (ApiRequest c "GET" endPoint "v1" true no_body (Some None)).

Definition GetOrderStatus (c : Client) (clientOrderId : string) : Reply BaseOrderResponse :=
  if String.eqb clientOrderId "" then
    {| rp_result := None;
       rp_err := Some (GoWallexErrorPtr
                         {| gw_Message := "client order id is required for getting order status";
                            gw_Err := None |});
       rp_calls := [] |}
  else
    reply_of (ApiRequest c "GET" ("/account/orders/" ++ clientOrderId) "v1" true no_body
                         (Some None)).

Definition GetUserTrades (c : Client) (params : UserTradesParams) : Reply UserTradesResponse :=
  reply_of (ApiRequest c "GET" "/account/trades" "v1" true (Some params) (Some None)).

End Endpoints.

(** ** Notions used to state the properties *)

(** The value an object has for a key: of several members with the same
    key the decoder keeps the last. *)
Fixpoint member (k : string) (ms : list (string * Json.value)) : option Json.value :=
  match ms with
  | [] => None
  | (k', v) :: r =>
    match member k r with
    | Some x => Some x
    | None => if String.eqb k' k then Some v else None
    end
  end.

(** [needle] occurs in [hay]. *)
Definition contains (needle hay : string) : Prop :=
  exists pre post : string, hay = pre ++ needle ++ post.

(** The number that the digits of [d] write after the digits already read
    into [acc]. *)
Fixpoint uint_val (acc : Z) (d : Decimal.uint) : Z :=
  match d with
  | Decimal.Nil => acc
  | Decimal.D0 r => uint_val (acc * 10) r
  | Decimal.D1 r => uint_val (acc * 10 + 1) r
  | Decimal.D2 r => uint_val (acc * 10 + 2) r
  | Decimal.D3 r => uint_val (acc * 10 + 3) r
  | Decimal.D4 r => uint_val (acc * 10 + 4) r
  | Decimal.D5 r => uint_val (acc * 10 + 5) r
  | Decimal.D6 r => uint_val (acc * 10 + 6) r
  | Decimal.D7 r => uint_val (acc * 10 + 7) r
  | Decimal.D8 r => uint_val (acc * 10 + 8) r
  | Decimal.D9 r => uint_val (acc * 10 + 9) r
  end.

(** The stage labels that Request gives to a RequestError, and the labels
    as the specification lists them. *)
Definition stage_labels : list string :=
  ["preparing request parameters"; "preparing request body"; "creating request";
   "sending request"; "reading response"; "parsing response"].

Definition specified_stage_labels : list string :=
  ["preparing parameters"; "preparing body"; "creating request";
   "sending request"; "reading response"; "parsing response"].

(** ** Doubles for the libraries and the transport

    Payloads and destinations are texts; the encoders of the first double
    copy the payload, the decoder keeps the body when it is JSON.  The
    second parameter encoder fails. *)
Definition copy_payload (b : string) : string + error := inl b.

Definition failing_encoder (b : string) : string + error :=
  inr (LibraryError "unsupported field type").

Definition any_request (method url : string) : option error := None.

Definition keep_json (body dst : string) : string * option error :=
  match Json.parse body with
  | Some _ => (body, None)
  | None => (dst, Some (LibraryError "json: syntax error"))
  end.

(** A transport that answers every request with the given status and body. *)
Definition answering (status : Z) (body : string) (req : HttpRequest)
    : HttpResponse + error :=
  inl {| resp_StatusCode := status; resp_Body := inl body |}.

Definition client_of (transport : HttpRequest -> HttpResponse + error) (key : string)
    : Client :=
  {| HttpClient := transport; BaseUrl := "https://api.wallex.ir"; Version := "v1";
     ApiKey := key |}.

(** Integers stand in for float64 where a concrete parser is needed. *)
Definition parse_integer (s : string) : option Z := ParseInt s 64.

(** The state of [apiErr] when the loop over [raw] starts (lines 103 to
    122), the entries that the first pass leaves in Fields, and the string
    that [raw] holds under the key detail, if it holds one. *)
Definition first_pass (statusCode : Z) (base : ErrorResponse) : APIError :=
  merge (fun s => s) statusCode base [].

Definition first_pass_fields (base : ErrorResponse) : gmap string (list string) :=
  let f : gmap string (list string) :=
    if 0 <? er_Code base then {[ "code" := [Itoa (er_Code base)] ]} else ∅ in
  if negb (String.eqb (er_Message base) "") then <["message" := [er_Message base]]> f else f.

Definition detail_of (raw : gmap string any) : option string :=
  match raw !! "detail" with
  | Some (AString s) => Some s
  | _ => None
  end.

(** The error that Request returns when the credential is required and
    absent (lines 195 to 200, 104 to 107). *)
Definition configuration_error : error :=
  GoWallexErrorPtr
    {| gw_Message := "authentication validation failed";
       gw_Err := Some (GoWallexErrorPtr
                         {| gw_Message := "API Key is empty"; gw_Err := None |}) |}.

(** A request as Request builds it before the credential, and with it. *)
Definition json_request (method url body : string) : HttpRequest :=
  Header_Set {| req_Method := method; req_URL := url; req_Body := body; req_Header := ∅ |}
             "Content-Type" "application/json".

Definition with_key (c : Client) (req : HttpRequest) : HttpRequest :=
  Header_Set req "X-API-Key" (ApiKey c).

(** What can be said of the reply of an endpoint: the transport was given
    no other request than [req]; the call was refused before the transport
    was used; a result comes from one answer of the transport with a status
    from 200 to 299 whose body the decoder took. *)
Definition sends_only {T : Type} (r : Reply T) (req : HttpRequest) : Prop :=
  forall q : HttpRequest, q ∈ rp_calls r -> q = req.

Definition sends_with_key {T : Type} (c : Client) (r : Reply T) (req : HttpRequest) : Prop :=
  forall q : HttpRequest, q ∈ rp_calls r -> q = with_key c req /\ ApiKey c <> "".

Definition refused_without_call {T : Type} (r : Reply T) : Prop :=
  rp_calls r = [] /\ rp_result r = None
  /\ exists e : error,
       rp_err r = Some e /\ (e = configuration_error \/ exists q, e = RequestErrorPtr q).

Definition from_successful_response
    (Unmarshal : forall D : Type, string -> D -> D * option error)
    {T : Type} (c : Client) (r : Reply T) : Prop :=
  (is_Some (rp_err r) -> rp_result r = None)
  /\ forall x : T,
       rp_result r = Some x ->
       rp_err r = None
       /\ exists (req : HttpRequest) (resp : HttpResponse) (respBody : string),
            rp_calls r = [req] /\ HttpClient c req = inl resp
            /\ resp_Body resp = inl respBody
            /\ 200 <= resp_StatusCode resp <= 299
            /\ Unmarshal (option T) respBody None = (Some x, None).

(** Encoders and a decoder for every type, for the endpoints: the encoders
    write nothing, the decoder leaves the destination. *)
Definition encode_nothing (B : Type) (b : B) : string + error := inl "".

Definition decode_nothing (D : Type) (body : string) (dst : D) : D * option error :=
  (dst, None).

(** * Properties *)

(** ** The parser *)

Module JsonFacts.
Import Json.

Lemma skip_space_length (s : string) :
  (String.length (skip_space s) <= String.length s)%nat.
Proof.
  induction s as [|c r IH]; simpl; [lia|].
  destruct (isSpace c); simpl; lia.
Qed.

Lemma emit_Some (p : string) (k : option (string * string)) (d rest : string) :
  emit p k = Some (d, rest) -> exists d', k = Some (d', rest).
Proof.
  destruct k as [[d' r']|]; simpl; [|discriminate]. intros [= _ <-]. eauto.
Qed.

Lemma string_body_length (n : nat) :
  forall s d rest, (String.length s <= n)%nat ->
    string_body s = Some (d, rest) -> (String.length rest < String.length s)%nat.
Proof.
  induction n as [|n IH]; intros s d rest Hn H.
  - destruct s; simpl in *; [discriminate|lia].
  - destruct s as [|c r]; [discriminate|].
    cbn [string_body] in H.
    repeat match type of H with
           | (if ?b then _ else _) = _ => destruct b
           | match ?x with _ => _ end = _ => destruct x
           | None = _ => discriminate H
           | Some _ = _ => injection H as _ <-; simpl; lia
           | emit _ (string_body ?t) = _ =>
               apply emit_Some in H as [d' H];
               apply IH in H; [simpl in *; lia|simpl in *; lia]
           end.
Qed.

Lemma digits_length (s : string) :
  (String.length (snd (digits s)) <= String.length s)%nat.
Proof.
  induction s as [|c r IH]; simpl; [lia|].
  destruct (is_digit c); simpl; [|lia].
  destruct (digits r) as [d rest]; simpl in *; lia.
Qed.

Lemma scan_int_length (s lit rest : string) :
  scan_int s = Some (lit, rest) -> (String.length rest < String.length s)%nat.
Proof.
  destruct s as [|c r]; simpl; [discriminate|].
  destruct (byte_val c =? 48)%Z; [intros [= _ <-]; lia|].
  destruct (is_digit c); [|discriminate].
  pose proof (digits_length r) as Hd. destruct (digits r) as [d rest'].
  intros [= _ <-]. simpl in *. lia.
Qed.

Lemma scan_frac_length (s lit rest : string) :
  scan_frac s = Some (lit, rest) -> (String.length rest <= String.length s)%nat.
Proof.
  destruct s as [|c r]; simpl; [intros [= _ <-]; simpl; lia|].
  destruct (byte_val c =? 46)%Z; [|intros [= _ <-]; simpl; lia].
  pose proof (digits_length r) as Hd. destruct (digits r) as [d rest'].
  destruct d; [discriminate|]. intros [= _ <-]. simpl in *. lia.
Qed.

Lemma scan_exp_length (s lit rest : string) :
  scan_exp s = Some (lit, rest) -> (String.length rest <= String.length s)%nat.
Proof.
  destruct s as [|c r]; simpl; [intros [= _ <-]; simpl; lia|].
  destruct ((byte_val c =? 101) || (byte_val c =? 69))%Z; [|intros [= _ <-]; simpl; lia].
  destruct r as [|g r'].
  - simpl. discriminate.
  - destruct ((byte_val g =? 43) || (byte_val g =? 45))%Z.
    + pose proof (digits_length r') as Hd. destruct (digits r') as [d rest'].
      destruct d; [discriminate|]. intros [= _ <-]. simpl in *. lia.
    + pose proof (digits_length (String g r')) as Hd.
      destruct (digits (String g r')) as [d rest'].
      destruct d; [discriminate|]. intros [= _ <-]. simpl in *. lia.
Qed.

Lemma scan_number_length (s lit rest : string) :
  scan_number s = Some (lit, rest) -> (String.length rest < String.length s)%nat.
Proof.
  unfold scan_number.
  assert (Hs : forall s1, (String.length s1 <= String.length s)%nat ->
            match scan_int s1 with
            | Some (i, s2) =>
              match scan_frac s2 with
              | Some (f, s3) =>
                match scan_exp s3 with
                | Some (e, s4) => (String.length s4 < String.length s)%nat
                | None => True
                end
              | None => True
              end
            | None => True
            end).
  { intros s1 H1. destruct (scan_int s1) as [[i s2]|] eqn:Hi; [|exact I].
    apply scan_int_length in Hi.
    destruct (scan_frac s2) as [[f s3]|] eqn:Hf; [|exact I].
    apply scan_frac_length in Hf.
    destruct (scan_exp s3) as [[e s4]|] eqn:He; [|exact I].
    apply scan_exp_length in He. lia. }
  destruct s as [|c r].
  - specialize (Hs "" (le_n _)). simpl in *. discriminate.
  - destruct (byte_val c =? 45)%Z.
    + specialize (Hs r). destruct (scan_int r) as [[i s2]|]; [|discriminate].
      destruct (scan_frac s2) as [[f s3]|]; [|discriminate].
      destruct (scan_exp s3) as [[e s4]|]; [|discriminate].
      intros [= _ <-]. apply Hs. simpl. lia.
    + specialize (Hs (String c r) (le_n _)).
      destruct (scan_int (String c r)) as [[i s2]|]; [|discriminate].
      destruct (scan_frac s2) as [[f s3]|]; [|discriminate].
      destruct (scan_exp s3) as [[e s4]|]; [|discriminate].
      intros [= _ <-]. exact Hs.
Qed.

Lemma strip_length (p s rest : string) :
  strip p s = Some rest -> (String.length rest <= String.length s)%nat.
Proof.
  revert s; induction p as [|a p IH]; intros s; simpl.
  - intros [= <-]. lia.
  - destruct s as [|b s']; [discriminate|].
    destruct (Ascii.eqb a b); [|discriminate]. intros H. apply IH in H. simpl. lia.
Qed.

(** With fuel for twice the length of the input, no parser stops for lack
    of fuel, and each consumes at least one byte when it succeeds. *)
Lemma parsers_fuel (fuel : nat) :
  (forall depth s, (2 * String.length s + 1 <= fuel)%nat ->
     parse_value fuel depth s <> OutOfFuel
     /\ forall a rest, parse_value fuel depth s = Ok a rest ->
                       (String.length rest < String.length s)%nat)
  /\ (forall depth s, (2 * String.length s + 2 <= fuel)%nat ->
        parse_elems fuel depth s <> OutOfFuel
        /\ forall a rest, parse_elems fuel depth s = Ok a rest ->
                          (String.length rest < String.length s)%nat)
  /\ (forall depth s, (2 * String.length s + 2 <= fuel)%nat ->
        parse_members fuel depth s <> OutOfFuel
        /\ forall a rest, parse_members fuel depth s = Ok a rest ->
                          (String.length rest < String.length s)%nat).
Proof.
  induction fuel as [|fuel (IHv & IHe & IHm)].
  { repeat split; intros; lia. }
  split; [|split].
  - intros depth s Hf. cbn [parse_value].
    pose proof (skip_space_length s) as Hs.
    destruct (skip_space s) as [|c r] eqn:Hsk; [split; [discriminate|discriminate]|].
    simpl in Hs.
    destruct (byte_val c =? 123)%Z.
    { destruct (maxNestingDepth <=? depth)%Z; [split; discriminate|].
      pose proof (skip_space_length r) as Hr.
      destruct (skip_space r) as [|c1 r1] eqn:Hsk1; [split; discriminate|].
      simpl in Hr.
      destruct (byte_val c1 =? 125)%Z; [split; [discriminate|intros a rest [= _ <-]; lia]|].
      destruct (IHm (depth + 1)%Z (String c1 r1)) as [Hne Hlen]; [simpl; lia|].
      destruct (parse_members fuel (depth + 1) (String c1 r1)) as [ms rest| |];
        [|split; discriminate|contradiction].
      split; [discriminate|]. intros a rest' [= _ <-].
      specialize (Hlen ms rest eq_refl). simpl in Hlen. lia. }
    destruct (byte_val c =? 91)%Z.
    { destruct (maxNestingDepth <=? depth)%Z; [split; discriminate|].
      pose proof (skip_space_length r) as Hr.
      destruct (skip_space r) as [|c1 r1] eqn:Hsk1; [split; discriminate|].
      simpl in Hr.
      destruct (byte_val c1 =? 93)%Z; [split; [discriminate|intros a rest [= _ <-]; lia]|].
      destruct (IHe (depth + 1)%Z (String c1 r1)) as [Hne Hlen]; [simpl; lia|].
      destruct (parse_elems fuel (depth + 1) (String c1 r1)) as [vs rest| |];
        [|split; discriminate|contradiction].
      split; [discriminate|]. intros a rest' [= _ <-].
      specialize (Hlen vs rest eq_refl). simpl in Hlen. lia. }
    destruct (byte_val c =? 34)%Z.
    { destruct (string_body r) as [[str rest]|] eqn:Hb; [|split; discriminate].
      apply (string_body_length _ _ _ _ (le_n _)) in Hb.
      split; [discriminate|]. intros a rest' [= _ <-]. lia. }
    destruct ((byte_val c =? 45)%Z || is_digit c).
    { destruct (scan_number (String c r)) as [[lit rest]|] eqn:Hn; [|split; discriminate].
      apply scan_number_length in Hn. simpl in Hn.
      split; [discriminate|]. intros a rest' [= _ <-]. lia. }
    destruct (byte_val c =? 116)%Z.
    { destruct (strip "rue" r) as [rest|] eqn:Hp; [|split; discriminate].
      apply strip_length in Hp. split; [discriminate|]. intros a rest' [= _ <-]. lia. }
    destruct (byte_val c =? 102)%Z.
    { destruct (strip "alse" r) as [rest|] eqn:Hp; [|split; discriminate].
      apply strip_length in Hp. split; [discriminate|]. intros a rest' [= _ <-]. lia. }
    destruct (byte_val c =? 110)%Z.
    { destruct (strip "ull" r) as [rest|] eqn:Hp; [|split; discriminate].
      apply strip_length in Hp. split; [discriminate|]. intros a rest' [= _ <-]. lia. }
    split; discriminate.
  - intros depth s Hf. cbn [parse_elems].
    destruct (IHv depth s) as [Hne Hlen]; [lia|].
    destruct (parse_value fuel depth s) as [v r| |]; [|split; discriminate|contradiction].
    specialize (Hlen v r eq_refl).
    pose proof (skip_space_length r) as Hr.
    destruct (skip_space r) as [|c r1]; [split; discriminate|]. simpl in Hr.
    destruct (byte_val c =? 44)%Z.
    { destruct (IHe depth r1) as [Hne1 Hlen1]; [lia|].
      destruct (parse_elems fuel depth r1) as [vs rest| |];
        [|split; discriminate|contradiction].
      specialize (Hlen1 vs rest eq_refl).
      split; [discriminate|]. intros a rest' [= _ <-]. lia. }
    destruct (byte_val c =? 93)%Z; [|split; discriminate].
    split; [discriminate|]. intros a rest' [= _ <-]. lia.
  - intros depth s Hf. cbn [parse_members].
    pose proof (skip_space_length s) as Hs.
    destruct (skip_space s) as [|q r]; [split; discriminate|]. simpl in Hs.
    destruct (byte_val q =? 34)%Z; [|split; discriminate].
    destruct (string_body r) as [[k r1]|] eqn:Hb; [|split; discriminate].
    apply (string_body_length _ _ _ _ (le_n _)) in Hb.
    pose proof (skip_space_length r1) as Hr1.
    destruct (skip_space r1) as [|c r2]; [split; discriminate|]. simpl in Hr1.
    destruct (byte_val c =? 58)%Z; [|split; discriminate].
    destruct (IHv depth r2) as [Hne Hlen]; [lia|].
    destruct (parse_value fuel depth r2) as [v r3| |]; [|split; discriminate|contradiction].
    specialize (Hlen v r3 eq_refl).
    pose proof (skip_space_length r3) as Hr3.
    destruct (skip_space r3) as [|c' r4]; [split; discriminate|]. simpl in Hr3.
    destruct (byte_val c' =? 44)%Z.
    { destruct (IHm depth r4) as [Hne1 Hlen1]; [lia|].
      destruct (parse_members fuel depth r4) as [ms rest| |];
        [|split; discriminate|contradiction].
      specialize (Hlen1 ms rest eq_refl).
      split; [discriminate|]. intros a rest' [= _ <-]. lia. }
    destruct (byte_val c' =? 125)%Z; [|split; discriminate].
    split; [discriminate|]. intros a rest' [= _ <-]. lia.
Qed.

(** [parse] gives its verdict on the syntax, never on the fuel. *)
Lemma parse_never_lacks_fuel (data : string) :
  parse_value (2 * String.length data + 1) 0 data <> OutOfFuel.
Proof. apply parsers_fuel. lia. Qed.

End JsonFacts.

(** ** The loop over [raw] *)

Section Loop.

Variable fmt : string -> string.

Lemma visit_Fields (e : APIError) (k : string) (v : any) :
  api_Fields (visit fmt e (k, v)) = <[k := recorded fmt v]> (api_Fields e).
Proof.
  destruct v; simpl; try reflexivity.
  destruct (String.eqb k "detail"); simpl; [|reflexivity].
  destruct (String.eqb (api_Message e) ""); reflexivity.
Qed.

Lemma visit_Code (e : APIError) (kv : string * any) :
  api_Code (visit fmt e kv) = api_Code e.
Proof.
  destruct kv as [k v]; destruct v; simpl; try reflexivity.
  destruct (String.eqb k "detail"); simpl; [|reflexivity].
  destruct (String.eqb (api_Message e) ""); reflexivity.
Qed.

Lemma visit_StatusCode (e : APIError) (kv : string * any) :
  api_StatusCode (visit fmt e kv) = api_StatusCode e.
Proof.
  destruct kv as [k v]; destruct v; simpl; try reflexivity.
  destruct (String.eqb k "detail"); simpl; [|reflexivity].
  destruct (String.eqb (api_Message e) ""); reflexivity.
Qed.

Lemma visit_Message_kept (e : APIError) (kv : string * any) :
  api_Message e <> "" -> api_Message (visit fmt e kv) = api_Message e.
Proof.
  intros Hne. destruct kv as [k v]; destruct v; simpl; try reflexivity.
  destruct (String.eqb k "detail"); simpl; [|reflexivity].
  destruct (String.eqb_spec (api_Message e) ""); [contradiction|reflexivity].
Qed.

(** An entry whose key is not [detail], or whose value is no string,
    changes Fields only. *)
Lemma visit_other (e : APIError) (k : string) (v : any) :
  k <> "detail" \/ (forall s, v <> AString s) ->
  visit fmt e (k, v) = set_Field e k (recorded fmt v).
Proof.
  intros H. destruct v; simpl; try reflexivity.
  destruct (String.eqb_spec k "detail") as [->|]; [|reflexivity].
  destruct H as [H|H]; [contradiction|]. now destruct (H s).
Qed.

Lemma set_Field_comm (e : APIError) (k1 k2 : string) (v1 v2 : list string) :
  k1 <> k2 -> set_Field (set_Field e k1 v1) k2 v2 = set_Field (set_Field e k2 v2) k1 v1.
Proof.
  intros Hne. unfold set_Field; simpl. f_equal. by apply insert_insert_ne.
Qed.

(** Two entries of different keys can be visited in either order. *)
Lemma visit_comm (e : APIError) (k1 k2 : string) (v1 v2 : any) :
  k1 <> k2 ->
  visit fmt (visit fmt e (k1, v1)) (k2, v2) = visit fmt (visit fmt e (k2, v2)) (k1, v1).
Proof.
  intros Hne.
  assert (Hcase : forall (k : string) (v : any),
             (k = "detail" /\ exists s, v = AString s)
             \/ (k <> "detail" \/ forall s, v <> AString s)).
  { intros k v. destruct (String.eqb_spec k "detail") as [->|]; [|by right; left].
    destruct v; try (by right; right); left; eauto. }
  destruct (Hcase k1 v1) as [[-> [s1 ->]]|H1]; destruct (Hcase k2 v2) as [[-> [s2 ->]]|H2].
  - contradiction.
  - rewrite (visit_other _ k2 v2 H2), (visit_other _ k2 v2 H2).
    simpl. destruct (String.eqb (api_Message e) ""); simpl;
      unfold set_Field, set_Message, set_Result; simpl; f_equal;
      by apply insert_insert_ne.
  - rewrite (visit_other _ k1 v1 H1), (visit_other _ k1 v1 H1).
    simpl. destruct (String.eqb (api_Message e) ""); simpl;
      unfold set_Field, set_Message, set_Result; simpl; f_equal;
      by apply insert_insert_ne.
  - rewrite !visit_other by assumption. by apply set_Field_comm.
Qed.

(** The loop does not depend on the order in which the entries come, as
    long as no key comes twice (as in a map). *)
Lemma fold_visit_perm (l1 l2 : list (string * any)) :
  l1 ≡ₚ l2 -> NoDup (l1.*1) ->
  forall e : APIError, fold_left (visit fmt) l1 e = fold_left (visit fmt) l2 e.
Proof.
  induction 1 as [|x l l' Hp IH|x y l|l l' l'' Hp1 IH1 Hp2 IH2]; intros Hnd e.
  - reflexivity.
  - simpl. apply IH. by inversion Hnd.
  - simpl. destruct x as [k1 v1], y as [k2 v2]. f_equal.
    apply visit_comm. simpl in Hnd. apply NoDup_cons in Hnd as [Hnotin _].
    intros ->. apply Hnotin. left.
  - rewrite IH1 by assumption. apply IH2. by rewrite <- Hp1.
Qed.

Lemma fold_visit_Code (l : list (string * any)) (e : APIError) :
  api_Code (fold_left (visit fmt) l e) = api_Code e.
Proof.
  revert e; induction l as [|kv l IH]; intros e; simpl; [reflexivity|].
  by rewrite IH, visit_Code.
Qed.

Lemma fold_visit_StatusCode (l : list (string * any)) (e : APIError) :
  api_StatusCode (fold_left (visit fmt) l e) = api_StatusCode e.
Proof.
  revert e; induction l as [|kv l IH]; intros e; simpl; [reflexivity|].
  by rewrite IH, visit_StatusCode.
Qed.

Lemma fold_visit_Message_kept (l : list (string * any)) (e : APIError) :
  api_Message e <> "" -> api_Message (fold_left (visit fmt) l e) = api_Message e.
Proof.
  revert e; induction l as [|kv l IH]; intros e Hne; simpl; [reflexivity|].
  rewrite IH; rewrite visit_Message_kept; auto.
Qed.

(** The key visited last has its value recorded. *)
Lemma fold_visit_Fields_last (l : list (string * any)) (k : string) (v : any) (e : APIError) :
  api_Fields (fold_left (visit fmt) (l ++ [(k, v)]) e) !! k = Some (recorded fmt v).
Proof.
  rewrite fold_left_app. cbn [fold_left]. rewrite visit_Fields. apply lookup_insert_eq.
Qed.

Lemma normalize_perm (statusCode : Z) (base : ErrorResponse) (l1 l2 : list (string * any)) :
  l1 ≡ₚ l2 -> NoDup (l1.*1) ->
  normalize fmt statusCode base l1 = normalize fmt statusCode base l2.
Proof.
  intros Hp Hnd. unfold normalize, merge. by rewrite (fold_visit_perm l1 l2 Hp Hnd).
Qed.

(** parseErrorResponse can be computed from any listing of [raw]. *)
Lemma parseErrorResponse_listing (statusCode : Z) (respBody : string)
    (l : list (string * any)) :
  l ≡ₚ map_to_list (Unmarshal_map respBody) ->
  parseErrorResponse fmt statusCode respBody
  = normalize fmt statusCode (Unmarshal_ErrorResponse respBody) l.
Proof.
  intros Hp. unfold parseErrorResponse. symmetry. apply normalize_perm; [done|].
  rewrite Hp. apply NoDup_fst_map_to_list.
Qed.

Lemma normalize_Fields (statusCode : Z) (base : ErrorResponse) (l : list (string * any)) :
  api_Fields (normalize fmt statusCode base l) = api_Fields (merge fmt statusCode base l).
Proof.
  unfold normalize. destruct (String.eqb _ ""); reflexivity.
Qed.

(** Every key of [raw] ends with the rendering of its value in Fields. *)
Lemma Fields_of_raw (statusCode : Z) (respBody : string) (k : string) (v : any) :
  Unmarshal_map respBody !! k = Some v ->
  api_Fields (parseErrorResponse fmt statusCode respBody) !! k = Some (recorded fmt v).
Proof.
  intros Hk.
  rewrite (parseErrorResponse_listing statusCode respBody
             (map_to_list (delete k (Unmarshal_map respBody)) ++ [(k, v)])).
  - rewrite normalize_Fields. unfold merge. apply fold_visit_Fields_last.
  - rewrite <- (map_to_list_delete _ _ _ Hk).
    rewrite Permutation_app_comm. reflexivity.
Qed.

(** A message that the first decode recovered is the message returned. *)
Lemma Message_of_base (statusCode : Z) (base : ErrorResponse) (l : list (string * any)) :
  er_Message base <> "" ->
  api_Message (normalize fmt statusCode base l) = er_Message base.
Proof.
  intros Hne. unfold normalize.
  assert (Hm : api_Message (merge fmt statusCode base l) = er_Message base).
  { unfold merge. destruct (String.eqb_spec (er_Message base) ""); [contradiction|]. simpl.
    rewrite fold_visit_Message_kept; destruct (0 <? er_Code base); simpl; auto. }
  rewrite Hm. destruct (String.eqb_spec (er_Message base) ""); [contradiction|].
  simpl. exact Hm.
Qed.

Lemma Code_of_base (statusCode : Z) (base : ErrorResponse) (l : list (string * any)) :
  0 < er_Code base ->
  api_Code (normalize fmt statusCode base l) = er_Code base.
Proof.
  intros Hpos. unfold normalize.
  assert (Hc : api_Code (merge fmt statusCode base l) = er_Code base).
  { unfold merge. rewrite fold_visit_Code.
    destruct (0 <? er_Code base) eqn:E; [|lia].
    destruct (negb (String.eqb (er_Message base) "")); reflexivity. }
  destruct (String.eqb _ ""); simpl; exact Hc.
Qed.

Lemma StatusCode_of_normalize (statusCode : Z) (base : ErrorResponse)
    (l : list (string * any)) :
  api_StatusCode (normalize fmt statusCode base l) = statusCode.
Proof.
  unfold normalize.
  assert (Hc : api_StatusCode (merge fmt statusCode base l) = statusCode).
  { unfold merge. rewrite fold_visit_StatusCode.
    destruct (0 <? er_Code base); destruct (negb (String.eqb (er_Message base) ""));
      reflexivity. }
  destruct (String.eqb _ ""); simpl; exact Hc.
Qed.

End Loop.

(** ** The two decodes *)

Section Decodes.

Variable fmt : string -> string.

(** *** strconv.Itoa and the digits it writes *)

Lemma digits_value_uint (d : Decimal.uint) (acc : Z) :
  digits_value acc (NilEmpty.string_of_uint d) = uint_val acc d.
Proof.
  revert acc; induction d; intros acc; simpl; try reflexivity; rewrite IHd;
    f_equal; unfold byte_val; simpl; lia.
Qed.

Lemma all_digits_uint (d : Decimal.uint) :
  all_digits (NilEmpty.string_of_uint d) = true.
Proof. induction d; simpl; auto. Qed.

Lemma length_uint (d : Decimal.uint) :
  String.length (NilEmpty.string_of_uint d) = Decimal.nb_digits d.
Proof. induction d; simpl; auto. Qed.

Lemma of_uint_acc_val (d : Decimal.uint) (acc : positive) :
  Z.pos (Pos.of_uint_acc d acc) = uint_val (Z.pos acc) d.
Proof.
  revert acc; induction d; intros acc; simpl; try reflexivity; rewrite IHd;
    f_equal; lia.
Qed.

Lemma of_uint_val (d : Decimal.uint) : Z.of_N (Pos.of_uint d) = uint_val 0 d.
Proof.
  induction d; simpl; try reflexivity; try exact IHd; apply of_uint_acc_val.
Qed.

Lemma to_uint_val (p : positive) : uint_val 0 (Pos.to_uint p) = Z.pos p.
Proof. rewrite <- of_uint_val, DecimalPos.Unsigned.of_to. reflexivity. Qed.

Lemma uint_val_lower (d : Decimal.uint) (acc : Z) :
  0 <= acc -> acc * 10 ^ Z.of_nat (Decimal.nb_digits d) <= uint_val acc d.
Proof.
  revert acc; induction d; intros acc Hacc; simpl Decimal.nb_digits; simpl uint_val;
    try (simpl; lia);
    rewrite Nat2Z.inj_succ, Z.pow_succ_r by lia;
    (etransitivity; [|apply IHd; lia]);
    assert (0 <= 10 ^ Z.of_nat (Decimal.nb_digits d)) by (apply Z.pow_nonneg; lia);
    nia.
Qed.

(** The decimal writing of a positive number does not start with 0. *)
Lemma to_uint_head (p : positive) (u : Decimal.uint) : Pos.to_uint p <> Decimal.D0 u.
Proof.
  intros Hd.
  pose proof (DecimalPos.Unsigned.to_of (Pos.to_uint p)) as Hn.
  rewrite DecimalPos.Unsigned.of_to in Hn. simpl in Hn. rewrite Hd in Hn.
  rewrite DecimalFacts.unorm_D0 in Hn.
  destruct u as [|u|u|u|u|u|u|u|u|u|u].
  1: { apply (DecimalPos.Unsigned.to_uint_nonzero p). exact Hd. }
  all: match type of Hn with
       | _ = Decimal.unorm ?x =>
         assert (Hx : x <> Decimal.Nil) by discriminate;
         pose proof (DecimalFacts.nb_digits_unorm x Hx) as Hle
       end;
    rewrite <- Hn in Hle; simpl in Hle; lia.
Qed.

Lemma Itoa_pos (p : positive) :
  Itoa (Z.pos p) = NilEmpty.string_of_uint (Pos.to_uint p).
Proof.
  unfold Itoa. simpl. unfold NilZero.string_of_uint.
  destruct (Pos.to_uint p) eqn:Hd; try reflexivity.
  now destruct (DecimalPos.Unsigned.to_uint_nonnil p).
Qed.

(** What strconv.Itoa writes for a positive number: digits only, a first
    digit that is not 0, the number as their value, and no more digits than
    the size of the number asks for. *)
Lemma Itoa_pos_shape (c : Z) :
  0 < c ->
  exists (ch : ascii) (rest : string),
    Itoa c = String ch rest
    /\ 49 <= byte_val ch <= 57
    /\ all_digits (Itoa c) = true
    /\ digits_value 0 (Itoa c) = c
    /\ 10 ^ Z.of_nat (String.length rest) <= c.
Proof.
  intros Hc. destruct c as [|p|p]; try lia.
  rewrite Itoa_pos.
  pose proof (to_uint_val p) as Hv.
  pose proof (to_uint_head p) as Hh.
  pose proof (DecimalPos.Unsigned.to_uint_nonnil p) as Hn.
  destruct (Pos.to_uint p) as [|u|u|u|u|u|u|u|u|u|u] eqn:Hd;
    [contradiction|now destruct (Hh u)|..];
    (eexists; eexists; split; [reflexivity|];
     split; [unfold byte_val; simpl; lia|];
     split; [apply (all_digits_uint (Pos.to_uint p))
             || (rewrite <- Hd; apply all_digits_uint)|];
     split; [rewrite digits_value_uint; exact Hv|];
     rewrite length_uint; simpl in Hv; rewrite <- Hv;
     (etransitivity; [|apply uint_val_lower; lia]); lia).
Qed.

Lemma code_literal (c : Z) :
  1 <= c <= 32767 ->
  ParseInt (Itoa c) 64 = Some c /\ fmt_number fmt (Itoa c) = Itoa c.
Proof.
  intros Hc.
  destruct (Itoa_pos_shape c) as (ch & rest & Hs & Hch & Hall & Hval & Hlen); [lia|].
  assert (Hrest : Z.of_nat (String.length rest) <= 4).
  { destruct (Z.le_gt_cases (Z.of_nat (String.length rest)) 4) as [H|H]; [exact H|].
    assert (10 ^ 5 <= 10 ^ Z.of_nat (String.length rest))
      by (apply Z.pow_le_mono_r; lia).
    change (10 ^ 5) with 100000 in *. lia. }
  assert (H45 : (byte_val ch =? 45) = false) by (apply Z.eqb_neq; lia).
  assert (H43 : (byte_val ch =? 43) = false) by (apply Z.eqb_neq; lia).
  split.
  - assert (Hr : (- 2 ^ (64 - 1) <=? c) && (c <? 2 ^ (64 - 1)) = true).
    { change (2 ^ (64 - 1)) with 9223372036854775808.
      apply andb_true_iff. split; [apply Z.leb_le|apply Z.ltb_lt]; lia. }
    unfold ParseInt. rewrite Hs, H45, H43, <- Hs, Hall, Hval, Hr. reflexivity.
  - unfold fmt_number. rewrite Hs, H45, <- Hs, Hall.
    assert (Hl : Z.of_nat (String.length (Itoa c)) = Z.of_nat (String.length rest) + 1).
    { rewrite Hs. simpl String.length. lia. }
    rewrite Hl.
    destruct (Z.leb_spec 1 (Z.of_nat (String.length rest) + 1)); [|lia].
    destruct (Z.leb_spec (Z.of_nat (String.length rest) + 1) 15); [|lia].
    simpl andb. unfold fmt_g_integer.
    destruct (String.eqb_spec (Itoa c) "0") as [Hzero|_].
    { rewrite Hzero in Hval. change (digits_value 0 "0") with 0 in Hval. lia. }
    rewrite Hl.
    destruct (Z.leb_spec 6 (Z.of_nat (String.length rest) + 1 - 1)); [lia|].
    reflexivity.
Qed.

Lemma set_field_message (r : ErrorResponse) (s : string) :
  set_field r ("message", Json.Str s)
  = {| er_Message := s; er_Success := er_Success r;
       er_Result := er_Result r; er_Code := er_Code r |}.
Proof. reflexivity. Qed.

Lemma set_field_success (r : ErrorResponse) (b : bool) :
  set_field r ("success", Json.Bool b)
  = {| er_Message := er_Message r; er_Success := b;
       er_Result := er_Result r; er_Code := er_Code r |}.
Proof. reflexivity. Qed.

Lemma set_field_code (r : ErrorResponse) (lit : string) (n : Z) :
  ParseInt lit 64 = Some n -> -32768 <= n <= 32767 ->
  set_field r ("code", Json.Number lit)
  = {| er_Message := er_Message r; er_Success := er_Success r;
       er_Result := er_Result r; er_Code := n |}.
Proof.
  intros Hp Hn. unfold set_field. simpl. rewrite Hp.
  destruct (Z.leb_spec (-32768) n); [|lia].
  destruct (Z.leb_spec n 32767); [|lia]. reflexivity.
Qed.

(** The map that the second decode builds holds, for each key, the value of
    the last member with that key. *)
Lemma fold_insert_lookup (ms : list (string * Json.value)) (m : gmap string any) (k : string) :
  fold_left (fun (m : gmap string any) kv => <[fst kv := valueInterface (snd kv)]> m) ms m !! k
  = match member k ms with
    | Some v => Some (valueInterface v)
    | None => m !! k
    end.
Proof.
  revert m; induction ms as [|[k' v] ms IH]; intros m; simpl; [reflexivity|].
  rewrite IH. destruct (member k ms); [reflexivity|].
  destruct (String.eqb_spec k' k) as [->|Hne].
  - apply lookup_insert_eq.
  - by apply lookup_insert_ne.
Qed.

Lemma Unmarshal_map_member (payload : string) (ms : list (string * Json.value))
    (k : string) (v : Json.value) :
  Json.parse payload = Some (Json.Object ms) -> member k ms = Some v ->
  Unmarshal_map payload !! k = Some (valueInterface v).
Proof.
  intros Hp Hm. unfold Unmarshal_map. rewrite Hp, fold_insert_lookup. by rewrite Hm.
Qed.

Lemma Sprint_v_strings (xs : list string) :
  List.map (Sprint_v fmt) (List.map AString xs) = xs.
Proof. induction xs as [|x xs IH]; simpl; [reflexivity|]. by rewrite IH. Qed.

Lemma valueInterface_strings (xs : list string) :
  List.map valueInterface (List.map Json.Str xs) = List.map AString xs.
Proof. induction xs as [|x xs IH]; simpl; [reflexivity|]. by rewrite IH. Qed.

Lemma synthesized_not_empty (statusCode : Z) : synthesized statusCode <> "".
Proof. unfold synthesized. discriminate. Qed.

Lemma synthesized_contains (statusCode : Z) :
  contains (Itoa statusCode) (synthesized statusCode).
Proof. exists "Wallex API error (", ")". reflexivity. Qed.

End Decodes.

(** ** The error normalizer *)

(** C1: the documented envelope, an object with the members success
    (false), code (the decimal literal of C, 1 <= C <= 32767, the positive
    values of an int16) and message (a non-empty string M), is normalized to
    Message M and Code C, with Fields[code] the one string str(C) and
    Fields[message] the one string M.  The second pass prints the code again
    with %v from a float64; the two texts agree. *)
Theorem documented_envelope (fmt : string -> string) (statusCode : Z)
    (payload : string) (C : Z) (M : string) :
  M <> "" ->
  1 <= C <= 32767 ->
  Json.parse payload
  = Some (Json.Object [("success", Json.Bool false);
                       ("code", Json.Number (Itoa C));
                       ("message", Json.Str M)]) ->
  api_Message (parseErrorResponse fmt statusCode payload) = M
  /\ api_Code (parseErrorResponse fmt statusCode payload) = C
  /\ api_Fields (parseErrorResponse fmt statusCode payload) !! "code" = Some [Itoa C]
  /\ api_Fields (parseErrorResponse fmt statusCode payload) !! "message" = Some [M].
Proof.
  intros HM HC Hp.
  destruct (code_literal fmt C HC) as [Hint Hfmt].
  assert (Hbase : Unmarshal_ErrorResponse payload
                  = {| er_Message := M; er_Success := false;
                       er_Result := None; er_Code := C |}).
  { unfold Unmarshal_ErrorResponse. rewrite Hp. cbn [fold_left].
    rewrite set_field_success, (set_field_code _ _ C Hint) by lia.
    by rewrite set_field_message. }
  repeat split.
  - unfold parseErrorResponse. rewrite Message_of_base; rewrite Hbase; simpl; auto.
  - unfold parseErrorResponse. rewrite Code_of_base; rewrite Hbase; simpl; auto. lia.
  - rewrite (Fields_of_raw fmt statusCode payload "code" (AFloat64 (Itoa C))).
    + simpl. by rewrite Hfmt.
    + by apply (Unmarshal_map_member payload _ "code" (Json.Number (Itoa C)) Hp).
  - rewrite (Fields_of_raw fmt statusCode payload "message" (AString M)).
    + reflexivity.
    + by apply (Unmarshal_map_member payload _ "message" (Json.Str M) Hp).
Qed.

Lemma documented_envelope_witness :
  api_Message (parseErrorResponse (fun s => s) 401
                 (json_text "{'success':false,'code':1201,'message':'invalid API key format'}"))
  = "invalid API key format"
  /\ api_Code (parseErrorResponse (fun s => s) 401
                 (json_text "{'success':false,'code':1201,'message':'invalid API key format'}"))
     = 1201
  /\ api_Fields (parseErrorResponse (fun s => s) 401
                   (json_text "{'success':false,'code':1201,'message':'invalid API key format'}"))
       !! "code" = Some ["1201"]
  /\ api_Fields (parseErrorResponse (fun s => s) 401
                   (json_text "{'success':false,'code':1201,'message':'invalid API key format'}"))
       !! "message" = Some ["invalid API key format"].
Proof.
  apply (documented_envelope (fun s => s) 401 _ 1201 "invalid API key format").
  - discriminate.
  - lia.
  - vm_compute. reflexivity.
Defined.

(** C2: whatever the status code and the payload, the Message of the
    APIError returned is not empty; when the two passes adopted no message,
    it is the synthesized text, in which the status code occurs. *)
Theorem message_never_empty (fmt : string -> string) (statusCode : Z) (payload : string) :
  api_Message (parseErrorResponse fmt statusCode payload) <> ""
  /\ (api_Message (merge fmt statusCode (Unmarshal_ErrorResponse payload)
                         (map_to_list (Unmarshal_map payload))) = "" ->
      api_Message (parseErrorResponse fmt statusCode payload) = synthesized statusCode
      /\ contains (Itoa statusCode) (api_Message (parseErrorResponse fmt statusCode payload))).
Proof.
  unfold parseErrorResponse, normalize.
  destruct (String.eqb_spec
              (api_Message (merge fmt statusCode (Unmarshal_ErrorResponse payload)
                                  (map_to_list (Unmarshal_map payload)))) "") as [He|Hne].
  - simpl. split; [apply synthesized_not_empty|].
    intros _. split; [reflexivity|apply synthesized_contains].
  - simpl. split; [exact Hne|]. intros He. contradiction.
Qed.

Lemma message_never_empty_witness :
  api_Message (parseErrorResponse (fun s => s) 502 "<html>Bad Gateway</html>")
  = "Wallex API error (502)"
  /\ contains "502" (api_Message (parseErrorResponse (fun s => s) 502 "<html>Bad Gateway</html>")).
Proof.
  apply (proj2 (message_never_empty (fun s => s) 502 "<html>Bad Gateway</html>")).
  vm_compute. reflexivity.
Defined.

(** C3, as the code has it: for the payload that is the object with the one
    member detail, a string D, the APIError has Result D and Fields[detail]
    the one string D; its Message is D when D is not empty and the
    synthesized text when D is empty.  A detail never replaces a message that
    the first decode recovered. *)
Theorem detail_payload (fmt : string -> string) (statusCode : Z) (payload D : string) :
  Json.parse payload = Some (Json.Object [("detail", Json.Str D)]) ->
  api_Message (parseErrorResponse fmt statusCode payload)
  = (if String.eqb D "" then synthesized statusCode else D)
  /\ api_Result (parseErrorResponse fmt statusCode payload) = Some D
  /\ api_Fields (parseErrorResponse fmt statusCode payload) !! "detail" = Some [D]
  /\ (forall other : string,
        er_Message (Unmarshal_ErrorResponse other) <> "" ->
        api_Message (parseErrorResponse fmt statusCode other)
        = er_Message (Unmarshal_ErrorResponse other)).
Proof.
  intros Hp.
  assert (Hraw : Unmarshal_map payload = {[ "detail" := AString D ]}).
  { unfold Unmarshal_map. rewrite Hp. reflexivity. }
  assert (Hbase : Unmarshal_ErrorResponse payload = ErrorResponse_zero).
  { unfold Unmarshal_ErrorResponse. rewrite Hp. reflexivity. }
  assert (He : parseErrorResponse fmt statusCode payload
               = normalize fmt statusCode ErrorResponse_zero [("detail", AString D)]).
  { unfold parseErrorResponse. by rewrite Hraw, Hbase, map_to_list_singleton. }
  rewrite He. repeat split.
  - unfold normalize, merge. simpl. destruct (String.eqb D ""); reflexivity.
  - unfold normalize, merge. simpl. destruct (String.eqb D ""); reflexivity.
  - unfold normalize, merge. simpl. destruct (String.eqb D ""); simpl;
      apply lookup_insert_eq.
  - intros other Hne. by apply Message_of_base.
Qed.

Lemma detail_payload_witness :
  api_Message (parseErrorResponse (fun s => s) 422
                 (json_text "{'detail': 'missing required parameter'}"))
  = "missing required parameter"
  /\ api_Result (parseErrorResponse (fun s => s) 422
                   (json_text "{'detail': 'missing required parameter'}"))
     = Some "missing required parameter".
Proof.
  pose proof (detail_payload (fun s => s) 422
                (json_text "{'detail': 'missing required parameter'}")
                "missing required parameter") as H.
  destruct H as (Hm & Hr & _).
  - vm_compute. reflexivity.
  - split; [exact Hm|exact Hr].
Defined.

(** C3 as stated fails where D is the empty string: the payload is the
    object whose detail is the empty string, and the Message is not D. *)
Lemma detail_empty_counterexample :
  Json.parse (json_text "{'detail': ''}") = Some (Json.Object [("detail", Json.Str "")])
  /\ api_Message (parseErrorResponse (fun s => s) 400 (json_text "{'detail': ''}"))
     = "Wallex API error (400)"
  /\ api_Message (parseErrorResponse (fun s => s) 400 (json_text "{'detail': ''}")) <> "".
Proof.
  split; [vm_compute; reflexivity|].
  split; [vm_compute; reflexivity|].
  vm_compute. discriminate.
Qed.

(** C6: the APIError does not depend on the order in which the loop ranges
    over the map: for every two orders in which the entries of [raw] can
    come, the results agree in every field, and they are the value of
    parseErrorResponse. *)
Theorem normalizer_deterministic (fmt : string -> string) (statusCode : Z)
    (payload : string) (order1 order2 : list (string * any)) :
  order1 ≡ₚ map_to_list (Unmarshal_map payload) ->
  order2 ≡ₚ map_to_list (Unmarshal_map payload) ->
  normalize fmt statusCode (Unmarshal_ErrorResponse payload) order1
  = normalize fmt statusCode (Unmarshal_ErrorResponse payload) order2
  /\ normalize fmt statusCode (Unmarshal_ErrorResponse payload) order1
     = parseErrorResponse fmt statusCode payload.
Proof.
  intros H1 H2.
  rewrite <- (parseErrorResponse_listing fmt statusCode payload order1 H1).
  rewrite <- (parseErrorResponse_listing fmt statusCode payload order2 H2).
  split; reflexivity.
Qed.

Lemma normalizer_deterministic_witness :
  normalize (fun s => s) 400
            (Unmarshal_ErrorResponse (json_text "{'field':'x','detail':'y'}"))
            [("field", AString "x"); ("detail", AString "y")]
  = normalize (fun s => s) 400
              (Unmarshal_ErrorResponse (json_text "{'field':'x','detail':'y'}"))
              [("detail", AString "y"); ("field", AString "x")]
  /\ normalize (fun s => s) 400
               (Unmarshal_ErrorResponse (json_text "{'field':'x','detail':'y'}"))
               [("field", AString "x"); ("detail", AString "y")]
     = parseErrorResponse (fun s => s) 400 (json_text "{'field':'x','detail':'y'}").
Proof.
  assert (Hl : map_to_list (Unmarshal_map (json_text "{'field':'x','detail':'y'}"))
               = [("field", AString "x"); ("detail", AString "y")])
    by (vm_compute; reflexivity).
  apply normalizer_deterministic; rewrite Hl.
  - reflexivity.
  - apply perm_swap.
Defined.

(** C7: for the payload of no bytes and for the payload [{}], the Message
    is the synthesized text, which is not empty and in which the status code
    occurs, and Fields is empty; both decodes recover nothing. *)
Theorem empty_body (fmt : string -> string) (statusCode : Z) :
  api_Message (parseErrorResponse fmt statusCode "") = synthesized statusCode
  /\ api_Fields (parseErrorResponse fmt statusCode "") = ∅
  /\ api_Message (parseErrorResponse fmt statusCode "{}") = synthesized statusCode
  /\ api_Fields (parseErrorResponse fmt statusCode "{}") = ∅
  /\ synthesized statusCode <> ""
  /\ contains (Itoa statusCode) (synthesized statusCode)
  /\ Json.parse "" = None
  /\ Unmarshal_ErrorResponse "" = ErrorResponse_zero /\ Unmarshal_map "" = ∅
  /\ Unmarshal_ErrorResponse "{}" = ErrorResponse_zero /\ Unmarshal_map "{}" = ∅.
Proof.
  assert (H0 : Unmarshal_map "" = ∅) by reflexivity.
  assert (H1 : Unmarshal_map "{}" = ∅) by reflexivity.
  assert (H2 : Unmarshal_ErrorResponse "" = ErrorResponse_zero) by reflexivity.
  assert (H3 : Unmarshal_ErrorResponse "{}" = ErrorResponse_zero) by reflexivity.
  unfold parseErrorResponse. rewrite H0, H1, H2, H3, map_to_list_empty.
  repeat split; try reflexivity.
  - apply synthesized_not_empty.
  - apply synthesized_contains.
Qed.

(** C8: when the value of a top-level key K is an array of strings,
    Fields[K] is the sequence of these strings, in the order of the array. *)
Theorem array_field_recorded (fmt : string -> string) (statusCode : Z)
    (payload : string) (ms : list (string * Json.value)) (K : string) (xs : list string) :
  Json.parse payload = Some (Json.Object ms) ->
  member K ms = Some (Json.Array (List.map Json.Str xs)) ->
  api_Fields (parseErrorResponse fmt statusCode payload) !! K = Some xs.
Proof.
  intros Hp Hm.
  rewrite (Fields_of_raw fmt statusCode payload K (ASlice (List.map AString xs))).
  - simpl. by rewrite Sprint_v_strings.
  - rewrite (Unmarshal_map_member payload ms K _ Hp Hm). simpl.
    by rewrite valueInterface_strings.
Qed.

Lemma array_field_recorded_witness :
  api_Fields (parseErrorResponse (fun s => s) 400 (json_text "{'errors':['a','b']}"))
    !! "errors" = Some ["a"; "b"].
Proof.
  apply (array_field_recorded (fun s => s) 400 (json_text "{'errors':['a','b']}")
           [("errors", Json.Array [Json.Str "a"; Json.Str "b"])] "errors" ["a"; "b"]).
  - vm_compute. reflexivity.
  - reflexivity.
Defined.

(** ** The request executor *)

Section ExecutorFacts.

Variable fmt : string -> string.
Variable B : Type.
Variable StructToURLParams : B -> string + error.
Variable Marshal : B -> string + error.
Variable NewRequest_error : string -> string -> option error.
Variable D : Type.
Variable Unmarshal : string -> D -> D * option error.

(** With the credential required and absent, the transport is not used,
    whatever happens before. *)
Lemma no_call_without_credential (c : Client) (method url : string)
    (body : option B) (result : option D) :
  ApiKey c = "" ->
  out_calls (Request fmt B StructToURLParams Marshal NewRequest_error D Unmarshal
                     c method url true body result) = [].
Proof.
  intros Hk. unfold Request.
  destruct (prepare_parameters _ _ _ _ _) as [url'|]; [|reflexivity].
  destruct (prepare_body _ _ _ _) as [reqBody|]; [|reflexivity].
  destruct (NewRequest _ _ _ _) as [req|]; [|reflexivity].
  unfold attach_credential, assertAuth. rewrite Hk. reflexivity.
Qed.

Lemma prepare_parameters_error (method url : string) (body : option B) (err : error) :
  prepare_parameters B StructToURLParams method url body = inr err ->
  exists cause : error,
    err = mkRequestError "failed to convert struct to URL params" cause
                         "preparing request parameters".
Proof.
  unfold prepare_parameters.
  destruct (String.eqb method "GET"); [|discriminate].
  destruct body as [b|]; [|discriminate].
  destruct (StructToURLParams b) as [params|cause]; [discriminate|].
  intros [= <-]. eauto.
Qed.

Lemma prepare_body_error (method : string) (body : option B) (err : error) :
  prepare_body B Marshal method body = inr err ->
  exists cause : error,
    err = mkRequestError "failed to marshal request body" cause "preparing request body".
Proof.
  unfold prepare_body.
  destruct (String.eqb method "POST"); [|discriminate].
  destruct body as [b|]; [|discriminate].
  destruct (Marshal b) as [bytes|cause]; [discriminate|].
  intros [= <-]. eauto.
Qed.

Lemma attach_credential_error (c : Client) (auth : bool) (req : HttpRequest)
    (e : RequestError) :
  attach_credential c auth req <> inr (RequestErrorPtr e).
Proof.
  unfold attach_credential. destruct auth; [|discriminate].
  destruct (assertAuth c); discriminate.
Qed.

End ExecutorFacts.

(** C4: when the transport has answered the request with a status outside
    200..299 and the body has been read, Request returns the APIError that
    parseErrorResponse builds from the status and the body; its StatusCode is
    the status of the response and the error is no RequestError.  A 400
    whose body is the object with message [invalid symbol] has that
    message. *)
Theorem non_success_status_is_APIError (fmt : string -> string) (B : Type)
    (StructToURLParams Marshal : B -> string + error)
    (NewRequest_error : string -> string -> option error)
    (D : Type) (Unmarshal : string -> D -> D * option error)
    (c : Client) (method url : string) (auth : bool)
    (body : option B) (result : option D)
    (req : HttpRequest) (resp : HttpResponse) (respBody : string) :
  out_calls (Request fmt B StructToURLParams Marshal NewRequest_error D Unmarshal
                     c method url auth body result) = [req] ->
  HttpClient c req = inl resp ->
  resp_Body resp = inl respBody ->
  resp_StatusCode resp < 200 \/ 299 < resp_StatusCode resp ->
  out_err (Request fmt B StructToURLParams Marshal NewRequest_error D Unmarshal
                   c method url auth body result)
  = Some (APIErrorPtr (parseErrorResponse fmt (resp_StatusCode resp) respBody))
  /\ api_StatusCode (parseErrorResponse fmt (resp_StatusCode resp) respBody)
     = resp_StatusCode resp
  /\ (forall e : RequestError,
        out_err (Request fmt B StructToURLParams Marshal NewRequest_error D Unmarshal
                         c method url auth body result)
        <> Some (RequestErrorPtr e))
  /\ (resp_StatusCode resp = 400 ->
      respBody = json_text "{'message':'invalid symbol'}" ->
      api_Message (parseErrorResponse fmt (resp_StatusCode resp) respBody)
      = "invalid symbol").
Proof.
  intros Hcalls Hdo Hbody Hstatus.
  assert (Hout : out_err (Request fmt B StructToURLParams Marshal NewRequest_error D
                                  Unmarshal c method url auth body result)
                 = Some (APIErrorPtr
                           (parseErrorResponse fmt (resp_StatusCode resp) respBody))).
  { revert Hcalls. unfold Request.
    destruct (prepare_parameters _ _ _ _ _) as [url'|]; [|discriminate].
    destruct (prepare_body _ _ _ _) as [reqBody|]; [|discriminate].
    destruct (NewRequest _ _ _ _) as [req0|]; [|discriminate].
    destruct (attach_credential _ _ _) as [req1|]; [|discriminate].
    destruct (HttpClient c req1) as [resp1|err] eqn:Hdo1.
    - destruct (resp_Body resp1) as [body1|err] eqn:Hb1.
      + assert (Hsame : out_calls
                          (if (resp_StatusCode resp1 <? 200) || (300 <=? resp_StatusCode resp1)
                           then returns D
                                  (Some (APIErrorPtr
                                           (parseErrorResponse fmt (resp_StatusCode resp1)
                                                               body1)))
                                  [req1] result
                           else
                             match result with
                             | Some dst =>
                               match Unmarshal body1 dst with
                               | (dst', Some err) =>
                                 returns D
                                   (Some (mkRequestError "failed to unmarshal response" err
                                                         "parsing response"))
                                   [req1] (Some dst')
                               | (dst', None) => returns D None [req1] (Some dst')
                               end
                             | None => returns D None [req1] None
                             end) = [req1]).
        { destruct ((resp_StatusCode resp1 <? 200) || (300 <=? resp_StatusCode resp1));
            [reflexivity|].
          destruct result as [dst|]; [|reflexivity].
          destruct (Unmarshal body1 dst) as [dst' [err|]]; reflexivity. }
        rewrite Hsame. intros [= ->].
        rewrite Hdo in Hdo1. injection Hdo1 as <-.
        rewrite Hbody in Hb1. injection Hb1 as <-.
        assert (Hc : (resp_StatusCode resp <? 200) || (300 <=? resp_StatusCode resp) = true).
        { apply orb_true_iff. destruct Hstatus; [left; lia|right; lia]. }
        rewrite Hc. reflexivity.
      + simpl. intros [= ->]. rewrite Hdo in Hdo1. injection Hdo1 as <-.
        rewrite Hbody in Hb1. discriminate.
    - simpl. intros [= ->]. rewrite Hdo in Hdo1. discriminate. }
  split; [exact Hout|]. split.
  - unfold parseErrorResponse. apply StatusCode_of_normalize.
  - split.
    + intros e. rewrite Hout. discriminate.
    + intros -> ->. vm_compute. reflexivity.
Qed.

Lemma non_success_status_is_APIError_witness :
  exists e : APIError,
    out_err (Request (fun s => s) string copy_payload copy_payload any_request
                     string keep_json
                     (client_of (answering 400 (json_text "{'message':'invalid symbol'}")) "")
                     "GET" "https://api.wallex.ir/v1/depth" false (Some "symbol=BTCUSDD") None)
    = Some (APIErrorPtr e)
    /\ api_StatusCode e = 400 /\ api_Message e = "invalid symbol".
Proof.
  pose proof (non_success_status_is_APIError (fun s => s) string copy_payload copy_payload
                any_request string keep_json
                (client_of (answering 400 (json_text "{'message':'invalid symbol'}")) "")
                "GET" "https://api.wallex.ir/v1/depth" false (Some "symbol=BTCUSDD") None
                {| req_Method := "GET";
                   req_URL := "https://api.wallex.ir/v1/depth?symbol=BTCUSDD";
                   req_Body := "";
                   req_Header := {[ "Content-Type" := "application/json" ]} |}
                {| resp_StatusCode := 400;
                   resp_Body := inl (json_text "{'message':'invalid symbol'}") |}
                (json_text "{'message':'invalid symbol'}")) as H.
  destruct H as (Herr & Hstatus & _ & Hmsg).
  - reflexivity.
  - reflexivity.
  - reflexivity.
  - simpl. right. lia.
  - eexists. split; [exact Herr|]. split; [exact Hstatus|].
    apply Hmsg; reflexivity.
Defined.

(** C5: with the auth flag set and an empty ApiKey, once the parameters,
    the body and the request have been prepared, Request returns the
    configuration error and the transport has not been used; the error is a
    GoWallexError, neither a RequestError nor an APIError. *)
Theorem empty_credential_is_configuration_error (fmt : string -> string) (B : Type)
    (StructToURLParams Marshal : B -> string + error)
    (NewRequest_error : string -> string -> option error)
    (D : Type) (Unmarshal : string -> D -> D * option error)
    (c : Client) (method url : string) (body : option B) (result : option D)
    (url' reqBody : string) :
  ApiKey c = "" ->
  prepare_parameters B StructToURLParams method url body = inl url' ->
  prepare_body B Marshal method body = inl reqBody ->
  NewRequest_error method url' = None ->
  out_err (Request fmt B StructToURLParams Marshal NewRequest_error D Unmarshal
                   c method url true body result)
  = Some (GoWallexErrorPtr
            {| gw_Message := "authentication validation failed";
               gw_Err := Some (GoWallexErrorPtr
                                 {| gw_Message := "API Key is empty"; gw_Err := None |}) |})
  /\ out_calls (Request fmt B StructToURLParams Marshal NewRequest_error D Unmarshal
                        c method url true body result) = []
  /\ (forall e : RequestError,
        out_err (Request fmt B StructToURLParams Marshal NewRequest_error D Unmarshal
                         c method url true body result) <> Some (RequestErrorPtr e))
  /\ (forall e : APIError,
        out_err (Request fmt B StructToURLParams Marshal NewRequest_error D Unmarshal
                         c method url true body result) <> Some (APIErrorPtr e)).
Proof.
  intros Hk Hp Hb Hn.
  assert (Hout : Request fmt B StructToURLParams Marshal NewRequest_error D Unmarshal
                         c method url true body result
                 = returns D
                     (Some (GoWallexErrorPtr
                              {| gw_Message := "authentication validation failed";
                                 gw_Err := Some (GoWallexErrorPtr
                                                   {| gw_Message := "API Key is empty";
                                                      gw_Err := None |}) |}))
                     [] result).
  { unfold Request. rewrite Hp, Hb. unfold NewRequest. rewrite Hn.
    unfold attach_credential, assertAuth. rewrite Hk. reflexivity. }
  rewrite Hout. simpl. repeat split; intros e; discriminate.
Qed.

Lemma empty_credential_is_configuration_error_witness :
  out_err (Request (fun s => s) string copy_payload copy_payload any_request string keep_json
                   (client_of (answering 200 "{}") "")
                   "GET" "https://api.wallex.ir/v1/account/balances" true None None)
  = Some (GoWallexErrorPtr
            {| gw_Message := "authentication validation failed";
               gw_Err := Some (GoWallexErrorPtr
                                 {| gw_Message := "API Key is empty"; gw_Err := None |}) |})
  /\ out_calls (Request (fun s => s) string copy_payload copy_payload any_request string
                        keep_json (client_of (answering 200 "{}") "")
                        "GET" "https://api.wallex.ir/v1/account/balances" true None None)
     = [].
Proof.
  pose proof (empty_credential_is_configuration_error (fun s => s) string copy_payload
                copy_payload any_request string keep_json
                (client_of (answering 200 "{}") "")
                "GET" "https://api.wallex.ir/v1/account/balances" None None
                "https://api.wallex.ir/v1/account/balances" "") as H.
  destruct H as (Herr & Hcalls & _).
  - reflexivity.
  - reflexivity.
  - reflexivity.
  - reflexivity.
  - split; [exact Herr|exact Hcalls].
Defined.

(** C9, as the code has it: a RequestError returned by Request carries one
    of the six labels preparing request parameters, preparing request body,
    creating request, sending request, reading response and parsing
    response, and the error that caused it. *)
Theorem transport_failure_stage (fmt : string -> string) (B : Type)
    (StructToURLParams Marshal : B -> string + error)
    (NewRequest_error : string -> string -> option error)
    (D : Type) (Unmarshal : string -> D -> D * option error)
    (c : Client) (method url : string) (auth : bool)
    (body : option B) (result : option D) (e : RequestError) :
  out_err (Request fmt B StructToURLParams Marshal NewRequest_error D Unmarshal
                   c method url auth body result) = Some (RequestErrorPtr e) ->
  In (re_Operation e) stage_labels
  /\ exists cause : error, gw_Err (re_GoWallexError e) = Some cause.
Proof.
  unfold Request.
  destruct (prepare_parameters _ _ _ _ _) as [url'|err] eqn:Hp.
  2:{ intros [= ->]. apply prepare_parameters_error in Hp as [cause [= ->]].
      simpl. split; [tauto|eauto]. }
  destruct (prepare_body _ _ _ _) as [reqBody|err] eqn:Hb.
  2:{ intros [= ->]. apply prepare_body_error in Hb as [cause [= ->]].
      simpl. split; [tauto|eauto]. }
  destruct (NewRequest _ _ _ _) as [req|err].
  2:{ intros [= <-]. simpl. split; [tauto|eauto]. }
  destruct (attach_credential _ _ _) as [req1|err] eqn:Ha.
  2:{ intros [= ->]. by apply attach_credential_error in Ha. }
  destruct (HttpClient c req1) as [resp|err].
  2:{ intros [= <-]. simpl. split; [tauto|eauto]. }
  destruct (resp_Body resp) as [respBody|err].
  2:{ intros [= <-]. simpl. split; [tauto|eauto]. }
  destruct ((resp_StatusCode resp <? 200) || (300 <=? resp_StatusCode resp));
    [discriminate|].
  destruct result as [dst|]; [|discriminate].
  destruct (Unmarshal respBody dst) as [dst' [err|]]; [|discriminate].
  intros [= <-]. simpl. split; [tauto|eauto].
Qed.

Lemma transport_failure_stage_witness :
  In "sending request" stage_labels
  /\ exists cause : error, Some (LibraryError "dial tcp: connection refused") = Some cause.
Proof.
  apply (transport_failure_stage (fun s => s) string copy_payload copy_payload any_request
           string keep_json
           (client_of (fun _ => inr (LibraryError "dial tcp: connection refused")) "key")
           "POST" "https://api.wallex.ir/v1/account/orders" true (Some "{}") None
           {| re_GoWallexError :=
                {| gw_Message := "failed to send request";
                   gw_Err := Some (LibraryError "dial tcp: connection refused") |};
              re_Operation := "sending request" |}).
  reflexivity.
Defined.

(** C9 as stated fails: when the parameters of a GET cannot be encoded, the
    label of the RequestError is preparing request parameters, which is none
    of the labels that the specification lists. *)
Lemma stage_label_counterexample :
  exists e : RequestError,
    out_err (Request (fun s => s) string failing_encoder copy_payload any_request string
                     keep_json (client_of (answering 200 "{}") "key")
                     "GET" "https://api.wallex.ir/v1/depth" false (Some "symbol") None)
    = Some (RequestErrorPtr e)
    /\ re_Operation e = "preparing request parameters"
    /\ ~ In (re_Operation e) specified_stage_labels.
Proof.
  eexists. split; [reflexivity|]. split; [reflexivity|].
  simpl. intros H. repeat (destruct H as [H|H]; [discriminate H|]). exact H.
Qed.

(** ** NumericOrEmpty *)

(** C10: UnmarshalJSON returns nil for every input.  A JSON number yields
    what ParseFloat makes of its literal, a JSON string that ParseFloat
    accepts yields the parsed value, and every other input yields zero:
    among them the string [-], the empty input, null, objects and arrays.
    ParseFloat does not accept the lone sign [-]. *)
Theorem UnmarshalJSON_never_fails (float64 : Type) (zero : float64)
    (ParseFloat : string -> option float64) (n : float64) (data : string) :
  ParseFloat "-" = None ->
  snd (UnmarshalJSON float64 zero ParseFloat n data) = None
  /\ (forall (lit : string) (f : float64),
        Json.parse data = Some (Json.Number lit) -> ParseFloat lit = Some f ->
        fst (UnmarshalJSON float64 zero ParseFloat n data) = f)
  /\ (forall (s : string) (f : float64),
        Json.parse data = Some (Json.Str s) -> ParseFloat s = Some f ->
        fst (UnmarshalJSON float64 zero ParseFloat n data) = f)
  /\ ((forall lit : string,
         Json.parse data = Some (Json.Number lit) -> ParseFloat lit = None) ->
      (forall s : string,
         Json.parse data = Some (Json.Str s) -> ParseFloat s = None) ->
      fst (UnmarshalJSON float64 zero ParseFloat n data) = zero)
  /\ fst (UnmarshalJSON float64 zero ParseFloat n (json_text "'-'")) = zero
  /\ fst (UnmarshalJSON float64 zero ParseFloat n "") = zero
  /\ fst (UnmarshalJSON float64 zero ParseFloat n "null") = zero
  /\ fst (UnmarshalJSON float64 zero ParseFloat n "{}") = zero
  /\ fst (UnmarshalJSON float64 zero ParseFloat n "[]") = zero.
Proof.
  intros Hdash.
  split; [|split; [|split; [|split; [|repeat split; reflexivity]]]].
  - unfold UnmarshalJSON, Unmarshal_float64, Unmarshal_string.
    destruct (Json.parse data) as [[| |lit|s| |]|]; simpl; try reflexivity.
    + destruct (ParseFloat lit); reflexivity.
    + destruct (String.eqb s "-"); [reflexivity|]. destruct (ParseFloat s); reflexivity.
  - intros lit f Hp Hf. unfold UnmarshalJSON, Unmarshal_float64.
    rewrite Hp, Hf. reflexivity.
  - intros s f Hp Hf. unfold UnmarshalJSON, Unmarshal_float64, Unmarshal_string.
    rewrite Hp. simpl. destruct (String.eqb_spec s "-") as [->|_].
    + rewrite Hdash in Hf. discriminate.
    + rewrite Hf. reflexivity.
  - intros Hnum Hstr. unfold UnmarshalJSON, Unmarshal_float64, Unmarshal_string.
    destruct (Json.parse data) as [[| |lit|s| |]|]; simpl; try reflexivity.
    + rewrite (Hnum lit eq_refl). reflexivity.
    + destruct (String.eqb s "-"); [reflexivity|]. rewrite (Hstr s eq_refl). reflexivity.
Qed.

Lemma UnmarshalJSON_never_fails_witness :
  UnmarshalJSON Z 0 parse_integer 7 (json_text "'42'") = (42, None)
  /\ UnmarshalJSON Z 0 parse_integer 7 "42" = (42, None)
  /\ UnmarshalJSON Z 0 parse_integer 7 (json_text "'-'") = (0, None).
Proof.
  pose proof (UnmarshalJSON_never_fails Z 0 parse_integer 7 (json_text "'42'")) as H1.
  pose proof (UnmarshalJSON_never_fails Z 0 parse_integer 7 "42") as H2.
  destruct H1 as (E1 & _ & S1 & _ & Dash & _); [reflexivity|].
  destruct H2 as (E2 & N2 & _); [reflexivity|].
  split; [|split].
  - apply injective_projections; simpl; [apply (S1 "42"); reflexivity|exact E1].
  - apply injective_projections; simpl; [apply (N2 "42"); reflexivity|exact E2].
  - apply injective_projections; [exact Dash|reflexivity].
Defined.

(** * Further properties of the code *)

(** ** parseErrorResponse, field by field *)

Section NormalizerFields.

Variable fmt : string -> string.

Lemma merge_first_pass (statusCode : Z) (base : ErrorResponse) (l : list (string * any)) :
  merge fmt statusCode base l = fold_left (visit fmt) l (first_pass statusCode base).
Proof. reflexivity. Qed.

Lemma first_pass_Fields (statusCode : Z) (base : ErrorResponse) :
  api_Fields (first_pass statusCode base) = first_pass_fields base.
Proof.
  unfold first_pass, merge, first_pass_fields. simpl.
  destruct (negb (String.eqb (er_Message base) "")), (0 <? er_Code base); reflexivity.
Qed.

Lemma first_pass_Message (statusCode : Z) (base : ErrorResponse) :
  api_Message (first_pass statusCode base) = er_Message base.
Proof.
  unfold first_pass, merge. simpl.
  destruct (String.eqb_spec (er_Message base) "") as [->|_];
    destruct (0 <? er_Code base); reflexivity.
Qed.

Lemma first_pass_rest (statusCode : Z) (base : ErrorResponse) :
  api_Result (first_pass statusCode base) = None
  /\ api_Success (first_pass statusCode base) = false
  /\ api_GoWallexError (first_pass statusCode base) = {| gw_Message := ""; gw_Err := None |}
  /\ api_Code (first_pass statusCode base) = (if 0 <? er_Code base then er_Code base else 0).
Proof.
  unfold first_pass, merge. simpl.
  destruct (negb (String.eqb (er_Message base) "")), (0 <? er_Code base); auto.
Qed.

Lemma visit_Success (e : APIError) (kv : string * any) :
  api_Success (visit fmt e kv) = api_Success e
  /\ api_GoWallexError (visit fmt e kv) = api_GoWallexError e.
Proof.
  destruct kv as [k v]; destruct v; simpl; auto.
  destruct (String.eqb k "detail"); simpl; auto.
  destruct (String.eqb (api_Message e) ""); auto.
Qed.

Lemma fold_visit_Success (l : list (string * any)) (e : APIError) :
  api_Success (fold_left (visit fmt) l e) = api_Success e
  /\ api_GoWallexError (fold_left (visit fmt) l e) = api_GoWallexError e.
Proof.
  revert e; induction l as [|kv l IH]; intros e; cbn [fold_left]; [auto|].
  destruct (IH (visit fmt e kv)) as [-> ->]. apply visit_Success.
Qed.

Lemma fold_visit_Fields_notin (l : list (string * any)) (k : string) (e : APIError) :
  k ∉ l.*1 -> api_Fields (fold_left (visit fmt) l e) !! k = api_Fields e !! k.
Proof.
  revert e; induction l as [|[k' v] l IH]; intros e Hk; cbn [fold_left]; [reflexivity|].
  rewrite fmap_cons in Hk. apply not_elem_of_cons in Hk as [Hne Hk].
  rewrite IH by assumption. rewrite visit_Fields. by apply lookup_insert_ne.
Qed.

(** Entries other than a string under detail leave Message and Result. *)
Lemma fold_visit_no_detail (l : list (string * any)) (e : APIError) :
  (forall s : string, ("detail", AString s) ∉ l) ->
  api_Message (fold_left (visit fmt) l e) = api_Message e
  /\ api_Result (fold_left (visit fmt) l e) = api_Result e.
Proof.
  revert e; induction l as [|[k v] l IH]; intros e Hl; cbn [fold_left]; [auto|].
  assert (Hv : k <> "detail" \/ forall s, v <> AString s).
  { destruct (String.eqb_spec k "detail") as [->|]; [|by left].
    right. intros s ->. apply (Hl s). left. }
  destruct (IH (visit fmt e (k, v))) as [-> ->].
  { intros s Hin. apply (Hl s). by right. }
  rewrite (visit_other fmt e k v Hv). auto.
Qed.

Lemma raw_listing_detail (raw : gmap string any) (D : string) :
  raw !! "detail" = Some (AString D) ->
  ("detail", AString D) :: map_to_list (delete "detail" raw) ≡ₚ map_to_list raw
  /\ forall s : string, ("detail", AString s) ∉ map_to_list (delete "detail" raw).
Proof.
  intros Hd. split; [by apply map_to_list_delete|].
  intros s Hin. apply elem_of_map_to_list in Hin. by rewrite lookup_delete_eq in Hin.
Qed.

Lemma raw_listing_no_detail (raw : gmap string any) :
  detail_of raw = None -> forall s : string, ("detail", AString s) ∉ map_to_list raw.
Proof.
  unfold detail_of. intros Hd s Hin. apply elem_of_map_to_list in Hin.
  rewrite Hin in Hd. discriminate.
Qed.

(** Message and Result of what the two passes leave, from the two decodes. *)
Lemma merge_Message_Result (statusCode : Z) (payload : string) :
  let m := merge fmt statusCode (Unmarshal_ErrorResponse payload)
                 (map_to_list (Unmarshal_map payload)) in
  api_Result m = detail_of (Unmarshal_map payload)
  /\ api_Message m
     = (if String.eqb (er_Message (Unmarshal_ErrorResponse payload)) ""
        then default "" (detail_of (Unmarshal_map payload))
        else er_Message (Unmarshal_ErrorResponse payload)).
Proof.
  set (base := Unmarshal_ErrorResponse payload). set (raw := Unmarshal_map payload).
  destruct (first_pass_rest statusCode base) as (Hres & _).
  pose proof (first_pass_Message statusCode base) as Hmsg.
  destruct (detail_of raw) as [D|] eqn:Hd.
  - assert (Hraw : raw !! "detail" = Some (AString D)).
    { unfold detail_of in Hd. destruct (raw !! "detail") as [[]|]; congruence. }
    destruct (raw_listing_detail raw D Hraw) as [Hperm Hno].
    assert (Hfold : merge fmt statusCode base (map_to_list raw)
                    = fold_left (visit fmt) (map_to_list (delete "detail" raw))
                                (visit fmt (first_pass statusCode base)
                                       ("detail", AString D))).
    { rewrite merge_first_pass.
      rewrite <- (fold_visit_perm fmt _ _ Hperm); [reflexivity|].
      rewrite Hperm. apply NoDup_fst_map_to_list. }
    simpl. rewrite Hfold.
    destruct (fold_visit_no_detail _ (visit fmt (first_pass statusCode base)
                                            ("detail", AString D)) Hno) as [-> ->].
    simpl. rewrite Hmsg.
    destruct (String.eqb (er_Message base) ""); simpl; [auto|].
    split; [reflexivity|exact Hmsg].
  - simpl. rewrite merge_first_pass.
    destruct (fold_visit_no_detail _ (first_pass statusCode base)
                (raw_listing_no_detail raw Hd)) as [-> ->].
    rewrite Hres, Hmsg. split; [reflexivity|].
    destruct (String.eqb_spec (er_Message base) "") as [->|]; reflexivity.
Qed.

(** An int16 is what the first decode leaves in Code. *)
Lemma set_field_Code_range (r : ErrorResponse) (kv : string * Json.value) :
  -32768 <= er_Code r <= 32767 -> -32768 <= er_Code (set_field r kv) <= 32767.
Proof.
  intros Hr. destruct kv as [k v]. unfold set_field.
  destruct (String.eqb (foldName k) "MESSAGE"); [destruct v; exact Hr|].
  destruct (String.eqb (foldName k) "SUCCESS"); [destruct v; exact Hr|].
  destruct (String.eqb (foldName k) "RESULT"); [exact Hr|].
  destruct (String.eqb (foldName k) "CODE"); [|exact Hr].
  destruct v; try exact Hr.
  destruct (ParseInt literal 64) as [n|]; [|exact Hr].
  destruct ((-32768 <=? n) && (n <=? 32767)) eqn:Hn; [|exact Hr].
  simpl. apply andb_prop in Hn as [H1 H2]. lia.
Qed.

Lemma Unmarshal_ErrorResponse_Code_range (payload : string) :
  -32768 <= er_Code (Unmarshal_ErrorResponse payload) <= 32767.
Proof.
  unfold Unmarshal_ErrorResponse.
  assert (Hfold : forall ms r, -32768 <= er_Code r <= 32767 ->
                    -32768 <= er_Code (fold_left set_field ms r) <= 32767).
  { induction ms as [|kv ms IH]; intros r Hr; simpl; [exact Hr|].
    apply IH. by apply set_field_Code_range. }
  destruct (Json.parse payload) as [[| | | | |ms]|]; try (simpl; lia).
  apply Hfold. simpl. lia.
Qed.

Lemma empty_payload_normalized (statusCode : Z) :
  api_Message (parseErrorResponse fmt statusCode "") = synthesized statusCode
  /\ api_Fields (parseErrorResponse fmt statusCode "") = ∅.
Proof.
  assert (H0 : Unmarshal_map "" = ∅) by reflexivity.
  assert (H2 : Unmarshal_ErrorResponse "" = ErrorResponse_zero) by reflexivity.
  unfold parseErrorResponse. rewrite H0, H2, map_to_list_empty. split; reflexivity.
Qed.

Lemma Fields_as_union (statusCode : Z) (payload : string) :
  api_Fields (parseErrorResponse fmt statusCode payload)
  = (recorded fmt <$> Unmarshal_map payload)
    ∪ first_pass_fields (Unmarshal_ErrorResponse payload).
Proof.
  apply map_eq. intros k. rewrite lookup_union, lookup_fmap.
  destruct (Unmarshal_map payload !! k) as [v|] eqn:Hk.
  - rewrite (Fields_of_raw fmt statusCode payload k v Hk). simpl.
    by destruct (first_pass_fields (Unmarshal_ErrorResponse payload) !! k).
  - unfold parseErrorResponse. rewrite normalize_Fields, merge_first_pass.
    rewrite fold_visit_Fields_notin.
    + rewrite first_pass_Fields. simpl.
      by destruct (first_pass_fields (Unmarshal_ErrorResponse payload) !! k).
    + intros Hin. apply list_elem_of_fmap in Hin as [[k' v] [-> Hin]].
      apply elem_of_map_to_list in Hin. simpl in Hk. congruence.
Qed.

Lemma Error_of_APIError (statusCode : Z) (payload : string) :
  Error (APIErrorPtr (parseErrorResponse fmt statusCode payload))
  = api_Message (parseErrorResponse fmt statusCode payload).
Proof.
  destruct (first_pass_rest statusCode (Unmarshal_ErrorResponse payload))
    as (_ & _ & Hg & _).
  destruct (fold_visit_Success (map_to_list (Unmarshal_map payload))
              (first_pass statusCode (Unmarshal_ErrorResponse payload))) as [_ Hg'].
  rewrite Hg in Hg'.
  unfold parseErrorResponse, normalize. rewrite merge_first_pass.
  destruct (String.eqb _ ""); simpl; by rewrite Hg'.
Qed.

End NormalizerFields.

(** X1: Fields holds, for every key of [raw], what the loop stores for
    its value, and besides that only what the first pass wrote: code when the
    code recovered is positive, message when the message recovered is not
    empty. *)
Theorem Fields_characterised (fmt : string -> string) (statusCode : Z) (payload : string) :
  api_Fields (parseErrorResponse fmt statusCode payload)
  = (recorded fmt <$> Unmarshal_map payload)
    ∪ first_pass_fields (Unmarshal_ErrorResponse payload).
Proof. apply Fields_as_union. Qed.

(** X2: the Message is the message that the first decode recovered when
    that is not empty; otherwise the string under detail when there is one
    and it is not empty; otherwise the synthesized text. *)
Theorem Message_characterised (fmt : string -> string) (statusCode : Z) (payload : string) :
  api_Message (parseErrorResponse fmt statusCode payload)
  = if negb (String.eqb (er_Message (Unmarshal_ErrorResponse payload)) "")
    then er_Message (Unmarshal_ErrorResponse payload)
    else
      match detail_of (Unmarshal_map payload) with
      | Some D => if String.eqb D "" then synthesized statusCode else D
      | None => synthesized statusCode
      end.
Proof.
  destruct (merge_Message_Result fmt statusCode payload) as [_ Hm].
  unfold parseErrorResponse, normalize. simpl in Hm.
  destruct (String.eqb_spec (er_Message (Unmarshal_ErrorResponse payload)) "") as [He|Hne];
    simpl.
  - rewrite Hm. destruct (detail_of (Unmarshal_map payload)) as [D|]; simpl.
    + destruct (String.eqb D ""); simpl; [reflexivity|exact Hm].
    + reflexivity.
  - rewrite Hm. destruct (String.eqb_spec (er_Message (Unmarshal_ErrorResponse payload)) "");
      [contradiction|]. simpl. exact Hm.
Qed.

(** X3: Result is the string that the payload has under the key detail, and
    nil when it has none: the member result of the envelope is not kept. *)
Theorem Result_characterised (fmt : string -> string) (statusCode : Z) (payload : string) :
  api_Result (parseErrorResponse fmt statusCode payload)
  = detail_of (Unmarshal_map payload).
Proof.
  destruct (merge_Message_Result fmt statusCode payload) as [Hr _].
  unfold parseErrorResponse, normalize. simpl in Hr.
  destruct (String.eqb _ ""); simpl; exact Hr.
Qed.

(** X4: whatever the payload says, the APIError has Success false, wraps
    no error, carries the status code it was given, and its method Error
    returns its Message. *)
Theorem APIError_fixed_fields (fmt : string -> string) (statusCode : Z) (payload : string) :
  api_Success (parseErrorResponse fmt statusCode payload) = false
  /\ GoWallexError_Unwrap (api_GoWallexError (parseErrorResponse fmt statusCode payload))
     = None
  /\ api_StatusCode (parseErrorResponse fmt statusCode payload) = statusCode
  /\ Error (APIErrorPtr (parseErrorResponse fmt statusCode payload))
     = api_Message (parseErrorResponse fmt statusCode payload).
Proof.
  destruct (first_pass_rest statusCode (Unmarshal_ErrorResponse payload))
    as (_ & Hs & Hg & _).
  destruct (fold_visit_Success fmt (map_to_list (Unmarshal_map payload))
              (first_pass statusCode (Unmarshal_ErrorResponse payload))) as [Hs' Hg'].
  rewrite Hs in Hs'. rewrite Hg in Hg'.
  split; [|split; [|split]].
  - unfold parseErrorResponse, normalize. rewrite merge_first_pass.
    destruct (String.eqb _ ""); simpl; exact Hs'.
  - unfold parseErrorResponse, normalize, GoWallexError_Unwrap. rewrite merge_first_pass.
    destruct (String.eqb _ ""); simpl; by rewrite Hg'.
  - apply StatusCode_of_normalize.
  - apply Error_of_APIError.
Qed.

(** X5: Code is the code that the first decode recovered when that is
    positive and 0 otherwise, so it is never negative; a positive Code comes
    with an entry code in Fields. *)
Theorem Code_characterised (fmt : string -> string) (statusCode : Z) (payload : string) :
  api_Code (parseErrorResponse fmt statusCode payload)
  = (if 0 <? er_Code (Unmarshal_ErrorResponse payload)
     then er_Code (Unmarshal_ErrorResponse payload) else 0)
  /\ 0 <= api_Code (parseErrorResponse fmt statusCode payload) <= 32767
  /\ (0 < api_Code (parseErrorResponse fmt statusCode payload) ->
      is_Some (api_Fields (parseErrorResponse fmt statusCode payload) !! "code")).
Proof.
  pose proof (Unmarshal_ErrorResponse_Code_range payload) as Hrange.
  destruct (first_pass_rest statusCode (Unmarshal_ErrorResponse payload))
    as (_ & _ & _ & Hc).
  assert (Hcode : api_Code (parseErrorResponse fmt statusCode payload)
                  = (if 0 <? er_Code (Unmarshal_ErrorResponse payload)
                     then er_Code (Unmarshal_ErrorResponse payload) else 0)).
  { unfold parseErrorResponse, normalize. rewrite merge_first_pass.
    destruct (String.eqb _ ""); simpl; by rewrite fold_visit_Code. }
  split; [exact Hcode|]. rewrite Hcode.
  destruct (Z.ltb_spec 0 (er_Code (Unmarshal_ErrorResponse payload))) as [Hpos|Hle].
  - split; [lia|]. intros _. rewrite Fields_as_union, lookup_union, lookup_fmap.
    assert (Hf : is_Some (first_pass_fields (Unmarshal_ErrorResponse payload) !! "code")).
    { unfold first_pass_fields.
      destruct (Z.ltb_spec 0 (er_Code (Unmarshal_ErrorResponse payload))); [|lia].
      destruct (negb _); [rewrite lookup_insert_ne by done|];
        rewrite lookup_singleton_eq; eauto. }
    destruct Hf as [x ->].
    destruct (Unmarshal_map payload !! "code"); simpl; eauto.
  - split; [lia|]. intros H. lia.
Qed.

Lemma Code_characterised_witness :
  api_Code (parseErrorResponse (fun s => s) 400 (json_text "{'code': -7, 'Code': 12}")) = 12
  /\ is_Some (api_Fields (parseErrorResponse (fun s => s) 400
                            (json_text "{'code': -7, 'Code': 12}")) !! "code").
Proof.
  destruct (Code_characterised (fun s => s) 400 (json_text "{'code': -7, 'Code': 12}"))
    as (Hc & _ & Hf).
  assert (Hbase : er_Code (Unmarshal_ErrorResponse (json_text "{'code': -7, 'Code': 12}"))
                  = 12) by (vm_compute; reflexivity).
  rewrite Hbase in Hc. split; [exact Hc|]. apply Hf. rewrite Hc. reflexivity.
Defined.

(** X6: a payload that is no JSON object (no JSON at all, or an array, a
    string, a number, a boolean or null) is normalized as the empty payload
    is: nothing is recovered from it. *)
Theorem non_object_payload (fmt : string -> string) (statusCode : Z) (payload : string) :
  (forall ms : list (string * Json.value), Json.parse payload <> Some (Json.Object ms)) ->
  parseErrorResponse fmt statusCode payload = parseErrorResponse fmt statusCode ""
  /\ api_Message (parseErrorResponse fmt statusCode payload) = synthesized statusCode
  /\ api_Fields (parseErrorResponse fmt statusCode payload) = ∅.
Proof.
  intros Hno.
  assert (Hraw : Unmarshal_map payload = ∅).
  { unfold Unmarshal_map. destruct (Json.parse payload) as [[| | | | |ms]|]; try reflexivity.
    now destruct (Hno ms). }
  assert (Hbase : Unmarshal_ErrorResponse payload = ErrorResponse_zero).
  { unfold Unmarshal_ErrorResponse.
    destruct (Json.parse payload) as [[| | | | |ms]|]; try reflexivity.
    now destruct (Hno ms). }
  assert (He : parseErrorResponse fmt statusCode payload
               = parseErrorResponse fmt statusCode "").
  { unfold parseErrorResponse. rewrite Hraw, Hbase. reflexivity. }
  rewrite He. split; [reflexivity|]. apply empty_payload_normalized.
Qed.

Lemma non_object_payload_witness :
  parseErrorResponse (fun s => s) 503 (json_text "['upstream', 'down']")
  = parseErrorResponse (fun s => s) 503 ""
  /\ api_Message (parseErrorResponse (fun s => s) 503 (json_text "['upstream', 'down']"))
     = synthesized 503
  /\ api_Fields (parseErrorResponse (fun s => s) 503 (json_text "['upstream', 'down']")) = ∅.
Proof.
  apply (non_object_payload (fun s => s) 503 (json_text "['upstream', 'down']")).
  intros ms. vm_compute. discriminate.
Defined.

(** ** Request: what reaches the transport, and what comes back *)

Section RequestFacts.

Variable fmt : string -> string.
Variable B : Type.
Variable StructToURLParams : B -> string + error.
Variable Marshal : B -> string + error.
Variable NewRequest_error : string -> string -> option error.
Variable D : Type.
Variable Unmarshal : string -> D -> D * option error.

Lemma Message_not_empty (statusCode : Z) (payload : string) :
  api_Message (parseErrorResponse fmt statusCode payload) <> "".
Proof.
  unfold parseErrorResponse, normalize.
  destruct (String.eqb_spec
              (api_Message (merge fmt statusCode (Unmarshal_ErrorResponse payload)
                                  (map_to_list (Unmarshal_map payload)))) "") as [He|Hne].
  - simpl. apply synthesized_not_empty.
  - simpl. exact Hne.
Qed.

(** After the transport has answered, the calls are the one request. *)
Lemma calls_after_answer (req : HttpRequest) (resp : HttpResponse) (respBody : string)
    (result : option D) :
  out_calls
    (if (resp_StatusCode resp <? 200) || (300 <=? resp_StatusCode resp)
     then returns D
            (Some (APIErrorPtr (parseErrorResponse fmt (resp_StatusCode resp) respBody)))
            [req] result
     else
       match result with
       | Some dst =>
         match Unmarshal respBody dst with
         | (dst', Some err) =>
           returns D
             (Some (mkRequestError "failed to unmarshal response" err "parsing response"))
             [req] (Some dst')
         | (dst', None) => returns D None [req] (Some dst')
         end
       | None => returns D None [req] None
       end) = [req].
Proof.
  destruct ((resp_StatusCode resp <? 200) || (300 <=? resp_StatusCode resp));
    [reflexivity|].
  destruct result as [dst|]; [|reflexivity].
  destruct (Unmarshal respBody dst) as [dst' [err|]]; reflexivity.
Qed.

(** Either the transport is not used and an error is returned, or it is
    used once, with the request that the preparation built. *)
Lemma Request_calls (c : Client) (method url : string) (auth : bool)
    (body : option B) (result : option D) :
  (out_calls (Request fmt B StructToURLParams Marshal NewRequest_error D Unmarshal
                      c method url auth body result) = []
   /\ is_Some (out_err (Request fmt B StructToURLParams Marshal NewRequest_error D Unmarshal
                                c method url auth body result)))
  \/ exists (url' reqBody : string) (req : HttpRequest),
       prepare_parameters B StructToURLParams method url body = inl url'
       /\ prepare_body B Marshal method body = inl reqBody
       /\ NewRequest_error method url' = None
       /\ attach_credential c auth
            (Header_Set {| req_Method := method; req_URL := url'; req_Body := reqBody;
                           req_Header := ∅ |} "Content-Type" "application/json")
          = inl req
       /\ out_calls (Request fmt B StructToURLParams Marshal NewRequest_error D Unmarshal
                             c method url auth body result) = [req].
Proof.
  unfold Request, NewRequest.
  destruct (prepare_parameters _ _ _ _ _) as [url'|err]; [|left; simpl; eauto].
  destruct (prepare_body _ _ _ _) as [reqBody|err]; [|left; simpl; eauto].
  destruct (NewRequest_error method url') as [err|] eqn:Hn; [left; simpl; eauto|].
  destruct (attach_credential _ _ _) as [req|err] eqn:Ha; [|left; simpl; eauto].
  right. exists url', reqBody, req. repeat (split; [reflexivity || assumption|]).
  destruct (HttpClient c req) as [resp|err]; [|reflexivity].
  destruct (resp_Body resp) as [respBody|err]; [|reflexivity].
  apply calls_after_answer.
Qed.

(** X7: a call of Request uses the transport once at most, and when it
    returns no error it has used it exactly once. *)
Theorem at_most_one_round_trip (c : Client) (method url : string) (auth : bool)
    (body : option B) (result : option D) :
  (length (out_calls (Request fmt B StructToURLParams Marshal NewRequest_error D Unmarshal
                              c method url auth body result)) <= 1)%nat
  /\ (out_err (Request fmt B StructToURLParams Marshal NewRequest_error D Unmarshal
                       c method url auth body result) = None ->
      exists req : HttpRequest,
        out_calls (Request fmt B StructToURLParams Marshal NewRequest_error D Unmarshal
                           c method url auth body result) = [req]).
Proof.
  destruct (Request_calls c method url auth body result)
    as [[Hc [e He]]|(url' & reqBody & req & _ & _ & _ & _ & Hc)]; rewrite Hc.
  - split; [simpl; lia|]. rewrite He. discriminate.
  - split; [simpl; lia|]. eauto.
Qed.


(** X9: the request that the transport is given: a GET with a payload has
    the encoded parameters after a question mark and no body; a POST with a
    payload has the marshalled payload as body and the URL as given; in every
    other case (no payload, or another method such as DELETE) the URL is as
    given and the body is empty, so the payload is dropped. *)
Theorem request_url_and_body (c : Client) (method url : string) (auth : bool)
    (body : option B) (result : option D) (req : HttpRequest) :
  req ∈ out_calls (Request fmt B StructToURLParams Marshal NewRequest_error D Unmarshal
                           c method url auth body result) ->
  match body with
  | Some b =>
    if String.eqb method "GET" then
      exists urlParams : string,
        StructToURLParams b = inl urlParams
        /\ req_URL req = url ++ "?" ++ urlParams /\ req_Body req = ""
    else if String.eqb method "POST" then
      Marshal b = inl (req_Body req) /\ req_URL req = url
    else req_URL req = url /\ req_Body req = ""
  | None => req_URL req = url /\ req_Body req = ""
  end.
Proof.
  intros Hin.
  destruct (Request_calls c method url auth body result)
    as [[Hc _]|(url' & reqBody & req' & Hp & Hb & _ & Ha & Hc)]; rewrite Hc in Hin.
  - by apply elem_of_nil in Hin.
  - apply list_elem_of_singleton in Hin as ->.
    assert (Hreq : req_URL req' = url' /\ req_Body req' = reqBody).
    { unfold attach_credential in Ha. destruct auth.
      - destruct (assertAuth c); [discriminate|]. injection Ha as <-. auto.
      - injection Ha as <-. auto. }
    destruct Hreq as [-> ->].
    unfold prepare_parameters in Hp. unfold prepare_body in Hb.
    destruct body as [b|].
    + destruct (String.eqb_spec method "GET") as [->|Hget].
      * simpl in Hb. injection Hb as <-.
        destruct (StructToURLParams b) as [params|]; [|discriminate].
        injection Hp as <-. eauto.
      * injection Hp as <-.
        destruct (String.eqb method "POST").
        -- destruct (Marshal b) as [bytes|]; [|discriminate]. injection Hb as <-. auto.
        -- injection Hb as <-. auto.
    + destruct (String.eqb method "GET"), (String.eqb method "POST");
        injection Hp as <-; injection Hb as <-; auto.
Qed.

(** X10: when the transport has answered with a status from 200 to 299
    and the body has been read: without a destination Request returns nil and
    does not look at the body; with a destination the body is decoded into it,
    and the error is nil when the decoding succeeds and a RequestError of the
    stage parsing response, wrapping the decoder's error, when it fails. *)
Theorem success_status (c : Client) (method url : string) (auth : bool)
    (body : option B) (result : option D)
    (req : HttpRequest) (resp : HttpResponse) (respBody : string) :
  out_calls (Request fmt B StructToURLParams Marshal NewRequest_error D Unmarshal
                     c method url auth body result) = [req] ->
  HttpClient c req = inl resp ->
  resp_Body resp = inl respBody ->
  200 <= resp_StatusCode resp <= 299 ->
  match result with
  | None =>
    out_err (Request fmt B StructToURLParams Marshal NewRequest_error D Unmarshal
                     c method url auth body result) = None
    /\ out_result (Request fmt B StructToURLParams Marshal NewRequest_error D Unmarshal
                           c method url auth body result) = None
  | Some dst =>
    out_result (Request fmt B StructToURLParams Marshal NewRequest_error D Unmarshal
                        c method url auth body result) = Some (fst (Unmarshal respBody dst))
    /\ out_err (Request fmt B StructToURLParams Marshal NewRequest_error D Unmarshal
                        c method url auth body result)
       = match snd (Unmarshal respBody dst) with
         | Some err =>
           Some (mkRequestError "failed to unmarshal response" err "parsing response")
         | None => None
         end
  end.
Proof.
  intros Hcalls Hdo Hbody Hstatus. revert Hcalls. unfold Request.
  destruct (prepare_parameters _ _ _ _ _) as [url'|]; [|discriminate].
  destruct (prepare_body _ _ _ _) as [reqBody|]; [|discriminate].
  destruct (NewRequest _ _ _ _) as [req0|]; [|discriminate].
  destruct (attach_credential _ _ _) as [req1|]; [|discriminate].
  destruct (HttpClient c req1) as [resp1|err] eqn:Hdo1.
  - destruct (resp_Body resp1) as [body1|err] eqn:Hb1.
    + rewrite calls_after_answer. intros [= ->].
      rewrite Hdo in Hdo1. injection Hdo1 as <-.
      rewrite Hbody in Hb1. injection Hb1 as <-.
      assert (Hc : (resp_StatusCode resp <? 200) || (300 <=? resp_StatusCode resp) = false).
      { apply orb_false_iff. split; [apply Z.ltb_ge|apply Z.leb_gt]; lia. }
      rewrite Hc. destruct result as [dst|]; [|auto].
      destruct (Unmarshal respBody dst) as [dst' [err|]]; auto.
    + simpl. intros [= ->]. rewrite Hdo in Hdo1. injection Hdo1 as <-.
      rewrite Hbody in Hb1. discriminate.
  - simpl. intros [= ->]. rewrite Hdo in Hdo1. discriminate.
Qed.

(** X11: every error that Request returns has a text that is not empty. *)
Theorem error_text_not_empty (c : Client) (method url : string) (auth : bool)
    (body : option B) (result : option D) (e : error) :
  out_err (Request fmt B StructToURLParams Marshal NewRequest_error D Unmarshal
                   c method url auth body result) = Some e ->
  Error e <> "".
Proof.
  unfold Request.
  destruct (prepare_parameters _ _ _ _ _) as [url'|err] eqn:Hp.
  2:{ intros [= <-]. apply prepare_parameters_error in Hp as [cause ->]. discriminate. }
  destruct (prepare_body _ _ _ _) as [reqBody|err] eqn:Hb.
  2:{ intros [= <-]. apply prepare_body_error in Hb as [cause ->]. discriminate. }
  destruct (NewRequest _ _ _ _) as [req|err]; [|intros [= <-]; discriminate].
  destruct (attach_credential _ _ _) as [req1|err] eqn:Ha.
  2:{ intros [= <-]. unfold attach_credential in Ha. destruct auth; [|discriminate].
      destruct (assertAuth c); [|discriminate]. injection Ha as <-. discriminate. }
  destruct (HttpClient c req1) as [resp|err]; [|intros [= <-]; discriminate].
  destruct (resp_Body resp) as [respBody|err]; [|intros [= <-]; discriminate].
  destruct ((resp_StatusCode resp <? 200) || (300 <=? resp_StatusCode resp)).
  - intros [= <-].
    rewrite Error_of_APIError. apply Message_not_empty.
  - destruct result as [dst|]; [|discriminate].
    destruct (Unmarshal respBody dst) as [dst' [err|]]; [|discriminate].
    intros [= <-]. discriminate.
Qed.

End RequestFacts.


Lemma request_url_and_body_witness :
  req_URL (json_request "DELETE" "https://api.wallex.ir/v1/account/orders" "")
  = "https://api.wallex.ir/v1/account/orders"
  /\ req_Body (json_request "DELETE" "https://api.wallex.ir/v1/account/orders" "") = "".
Proof.
  apply (request_url_and_body (fun s => s) string copy_payload copy_payload any_request
           string keep_json (client_of (answering 200 "{}") "")
           "DELETE" "https://api.wallex.ir/v1/account/orders" false
           (Some "clientOrderId=7") None
           (json_request "DELETE" "https://api.wallex.ir/v1/account/orders" "")).
  apply list_elem_of_singleton. reflexivity.
Defined.

Lemma success_status_witness :
  out_err (Request (fun s => s) string copy_payload copy_payload any_request string keep_json
                   (client_of (answering 200 "<html>") "")
                   "GET" "https://api.wallex.ir/v1/markets" false None None) = None
  /\ out_result (Request (fun s => s) string copy_payload copy_payload any_request string
                         keep_json (client_of (answering 200 "<html>") "")
                         "GET" "https://api.wallex.ir/v1/markets" false None None) = None.
Proof.
  apply (success_status (fun s => s) string copy_payload copy_payload any_request
           string keep_json (client_of (answering 200 "<html>") "")
           "GET" "https://api.wallex.ir/v1/markets" false None None
           (json_request "GET" "https://api.wallex.ir/v1/markets" "")
           {| resp_StatusCode := 200; resp_Body := inl "<html>" |} "<html>").
  - reflexivity.
  - reflexivity.
  - reflexivity.
  - simpl. lia.
Defined.

Lemma error_text_not_empty_witness :
  Error configuration_error <> "".
Proof.
  apply (error_text_not_empty (fun s => s) string copy_payload copy_payload any_request
           string keep_json (client_of (answering 200 "{}") "")
           "GET" "https://api.wallex.ir/v1/account/balances" true None None
           configuration_error).
  reflexivity.
Defined.

(** ** ApiRequest and the endpoints *)

Section EndpointFacts.

Variable fmt : string -> string.
Variable StructToURLParams : forall B : Type, B -> string + error.
Variable Marshal : forall B : Type, B -> string + error.
Variable NewRequest_error : string -> string -> option error.
Variable Unmarshal : forall D : Type, string -> D -> D * option error.

Lemma reply_of_calls {T : Type} (out : Outcome (option T)) :
  rp_calls (reply_of out) = out_calls out /\ rp_err (reply_of out) = out_err out.
Proof. unfold reply_of. destruct (out_err out); auto. Qed.

(** An endpoint that requires the credential, on a client without one. *)
Lemma ApiRequest_refused {B T : Type} (c : Client) (method endpoint version : string)
    (body : option B) :
  ApiKey c = "" ->
  refused_without_call
    (reply_of (ApiRequest fmt StructToURLParams Marshal NewRequest_error Unmarshal
                          (D := option T) c method endpoint version true body (Some None))).
Proof.
  intros Hk. unfold refused_without_call, reply_of, ApiRequest, Request.
  destruct (prepare_parameters _ _ _ _ _) as [url'|err] eqn:Hp.
  2:{ apply prepare_parameters_error in Hp as [cause ->]. simpl.
      repeat split; eauto. }
  destruct (prepare_body _ _ _ _) as [reqBody|err] eqn:Hb.
  2:{ apply prepare_body_error in Hb as [cause ->]. simpl. repeat split; eauto. }
  destruct (NewRequest _ _ _ _) as [req|err]; [|simpl; repeat split; eauto].
  unfold attach_credential, assertAuth. rewrite Hk. simpl.
  repeat split; eauto.
Qed.

(** The request of an endpoint, when the transport is given one. *)
Lemma ApiRequest_sent {B D : Type} (c : Client) (method endpoint version : string)
    (auth : bool) (body : option B) (result : option D) (req : HttpRequest) :
  req ∈ out_calls (ApiRequest fmt StructToURLParams Marshal NewRequest_error Unmarshal
                              c method endpoint version auth body result) ->
  exists url' reqBody : string,
    prepare_parameters B (StructToURLParams B) method (createApiURI c endpoint version) body
    = inl url'
    /\ prepare_body B (Marshal B) method body = inl reqBody
    /\ req = (if auth then with_key c (json_request method url' reqBody)
              else json_request method url' reqBody)
    /\ (auth = true -> ApiKey c <> "").
Proof.
  intros Hin. unfold ApiRequest in Hin.
  destruct (Request_calls fmt B (StructToURLParams B) (Marshal B) NewRequest_error D
              (Unmarshal D) c method (createApiURI c endpoint version) auth body result)
    as [[Hc _]|(url' & reqBody & req' & Hp & Hb & _ & Ha & Hc)]; rewrite Hc in Hin.
  - by apply elem_of_nil in Hin.
  - apply list_elem_of_singleton in Hin as ->. exists url', reqBody.
    split; [exact Hp|]. split; [exact Hb|].
    unfold attach_credential, assertAuth in Ha. destruct auth.
    + destruct (String.eqb_spec (ApiKey c) "") as [He|Hne]; [discriminate|].
      injection Ha as <-. split; [reflexivity|auto].
    + injection Ha as <-. split; [reflexivity|discriminate].
Qed.

Lemma prepare_no_body (B : Type) (method url : string) :
  prepare_parameters B (StructToURLParams B) method url None = inl url
  /\ prepare_body B (Marshal B) method None = inl "".
Proof.
  unfold prepare_parameters, prepare_body.
  destruct (String.eqb method "GET"), (String.eqb method "POST"); auto.
Qed.

Lemma ApiRequest_sent_no_body {D : Type} (c : Client) (method endpoint version : string)
    (auth : bool) (result : option D) (req : HttpRequest) :
  req ∈ out_calls (ApiRequest fmt StructToURLParams Marshal NewRequest_error Unmarshal
                              c method endpoint version auth no_body result) ->
  req = (if auth
         then with_key c (json_request method (createApiURI c endpoint version) "")
         else json_request method (createApiURI c endpoint version) "")
  /\ (auth = true -> ApiKey c <> "").
Proof.
  intros Hin. apply ApiRequest_sent in Hin as (url' & reqBody & Hp & Hb & -> & Hk).
  destruct (prepare_no_body unit method (createApiURI c endpoint version)) as [Hp' Hb'].
  unfold no_body in Hp, Hb. rewrite Hp' in Hp. rewrite Hb' in Hb.
  injection Hp as <-. injection Hb as <-. auto.
Qed.

(** A result comes from a response of the success class only. *)
Lemma ApiRequest_result {B T : Type} (c : Client) (method endpoint version : string)
    (auth : bool) (body : option B) :
  from_successful_response Unmarshal c
    (reply_of (ApiRequest fmt StructToURLParams Marshal NewRequest_error Unmarshal
                          (D := option T) c method endpoint version auth body (Some None))).
Proof.
  unfold from_successful_response, reply_of, ApiRequest, Request.
  destruct (prepare_parameters _ _ _ _ _) as [url'|err];
    [|simpl; split; [reflexivity|discriminate]].
  destruct (prepare_body _ _ _ _) as [reqBody|err];
    [|simpl; split; [reflexivity|discriminate]].
  destruct (NewRequest _ _ _ _) as [req|err];
    [|simpl; split; [reflexivity|discriminate]].
  destruct (attach_credential _ _ _) as [req1|err];
    [|simpl; split; [reflexivity|discriminate]].
  destruct (HttpClient c req1) as [resp|err] eqn:Hdo;
    [|simpl; split; [reflexivity|discriminate]].
  destruct (resp_Body resp) as [respBody|err] eqn:Hbody;
    [|simpl; split; [reflexivity|discriminate]].
  destruct ((resp_StatusCode resp <? 200) || (300 <=? resp_StatusCode resp)) eqn:Hs;
    [simpl; split; [reflexivity|discriminate]|].
  apply orb_false_iff in Hs as [Hlo Hhi].
  apply Z.ltb_ge in Hlo. apply Z.leb_gt in Hhi.
  destruct (Unmarshal (option T) respBody None) as [dst' [err|]] eqn:Hu; simpl.
  - split; [reflexivity|discriminate].
  - split; [intros [e He]; discriminate|].
    intros x ->. split; [reflexivity|].
    exists req1, resp, respBody. repeat split; auto; lia.
Qed.

(** X12: on a client whose ApiKey is empty, each of the six endpoints that
    require the credential returns no result and an error, which is the
    configuration error unless the preparation of the request has failed
    before; the transport is not used.  (For GetOrderStatus with a client
    order id.) *)
Theorem private_endpoints_need_key
    (Wallets BaseOrderResponse CancelOrderResponse OpenOrdersResponse UserTradesResponse : Type)
    (c : Client) :
  ApiKey c = "" ->
  refused_without_call
    (GetWallets fmt StructToURLParams Marshal NewRequest_error Unmarshal Wallets c)
  /\ (forall params : CreateOrderParams,
        refused_without_call
          (CreateOrder fmt StructToURLParams Marshal NewRequest_error Unmarshal
                       BaseOrderResponse c params))
  /\ (forall clientOrderId : string,
        refused_without_call
          (CancelOrder fmt StructToURLParams Marshal NewRequest_error Unmarshal
                       CancelOrderResponse c clientOrderId))
  /\ (forall symbol : string,
        refused_without_call
          (GetOpenOrders fmt StructToURLParams Marshal NewRequest_error Unmarshal
                         OpenOrdersResponse c symbol))
  /\ (forall clientOrderId : string,
        clientOrderId <> "" ->
        refused_without_call
          (GetOrderStatus fmt StructToURLParams Marshal NewRequest_error Unmarshal
                          BaseOrderResponse c clientOrderId))
  /\ (forall params : UserTradesParams,
        refused_without_call
          (GetUserTrades fmt StructToURLParams Marshal NewRequest_error Unmarshal
                         UserTradesResponse c params)).
Proof.
  intros Hk.
  split; [by apply ApiRequest_refused|].
  split; [intros params; by apply ApiRequest_refused|].
  split; [intros clientOrderId; by apply ApiRequest_refused|].
  split; [intros symbol; by apply ApiRequest_refused|].
  split; [|intros params; by apply ApiRequest_refused].
  intros clientOrderId Hid. unfold GetOrderStatus.
  destruct (String.eqb_spec clientOrderId ""); [contradiction|].
  by apply ApiRequest_refused.
Qed.

(** X13: the four public endpoints give the transport no other request
    than a GET of their URL with an empty body and the one header
    Content-Type: the key of the client is not sent, whether it has one or
    not. *)
Theorem public_endpoints_send_no_key (MarketInformation Depth AllDepths Trades : Type)
    (c : Client) :
  sends_only
    (GetMarketsInfo fmt StructToURLParams Marshal NewRequest_error Unmarshal
                    MarketInformation c)
    (json_request "GET" (BaseUrl c ++ "/v1/markets") "")
  /\ (forall symbol : string,
        sends_only
          (GetOrderBook fmt StructToURLParams Marshal NewRequest_error Unmarshal Depth
                        c symbol)
          (json_request "GET" (BaseUrl c ++ "/v1/depth?symbol=" ++ symbol) ""))
  /\ sends_only
       (GetAllOrderBooks fmt StructToURLParams Marshal NewRequest_error Unmarshal
                         AllDepths c)
       (json_request "GET" (BaseUrl c ++ "/v2/depth/all") "")
  /\ (forall symbol : string,
        sends_only
          (GetRecentTrades fmt StructToURLParams Marshal NewRequest_error Unmarshal Trades
                           c symbol)
          (json_request "GET" (BaseUrl c ++ "/v1/trades?symbol=" ++ symbol) ""))
  /\ forall url : string,
       req_Header (json_request "GET" url "") !! "X-API-Key" = None.
Proof.
  assert (Hsent : forall (T : Type) (endpoint version : string) (q : HttpRequest),
             q ∈ rp_calls (reply_of (ApiRequest fmt StructToURLParams Marshal
                                                NewRequest_error Unmarshal
                                                (D := option T) c "GET" endpoint version
                                                false no_body (Some None))) ->
             q = json_request "GET" (createApiURI c endpoint version) "").
  { intros T endpoint version q Hq. rewrite (proj1 (reply_of_calls _)) in Hq.
    by apply ApiRequest_sent_no_body in Hq as [-> _]. }
  split; [intros q Hq; apply (Hsent _ _ _ _ Hq)|].
  split; [intros symbol q Hq; apply (Hsent _ _ _ _ Hq)|].
  split; [intros q Hq; apply (Hsent _ _ _ _ Hq)|].
  split; [intros symbol q Hq; apply (Hsent _ _ _ _ Hq)|].
  intros url. unfold json_request. simpl. by rewrite lookup_insert_ne, lookup_empty.
Qed.

Lemma append_assoc (a b c : string) : (a ++ b) ++ c = a ++ b ++ c.
Proof.
  induction a as [|x a IH]; [reflexivity|].
  change (String x ((a ++ b) ++ c) = String x (a ++ b ++ c)). by rewrite IH.
Qed.

Lemma ApiRequest_sent_with_key {T : Type} (c : Client) (method endpoint version : string)
    (q : HttpRequest) :
  q ∈ rp_calls (reply_of (ApiRequest fmt StructToURLParams Marshal NewRequest_error
                                     Unmarshal (D := option T) c method endpoint version
                                     true no_body (Some None))) ->
  q = with_key c (json_request method (createApiURI c endpoint version) "")
  /\ ApiKey c <> "".
Proof.
  intros Hq. rewrite (proj1 (reply_of_calls _)) in Hq.
  apply ApiRequest_sent_no_body in Hq as [-> Hk]. auto.
Qed.

(** X14: the requests of the six endpoints that require the credential,
    when the transport is given one: each carries the key of the client,
    which is then not empty, in the header X-API-Key.  GetWallets, CancelOrder
    (a DELETE), GetOpenOrders and GetOrderStatus send an empty body;
    GetOpenOrders has the query symbol only for a symbol that is not empty;
    GetOrderStatus sends nothing for an empty client order id; CreateOrder
    posts the marshalled parameters; GetUserTrades puts the encoded
    parameters in the query. *)
Theorem private_endpoints_requests
    (Wallets BaseOrderResponse CancelOrderResponse OpenOrdersResponse UserTradesResponse : Type)
    (c : Client) :
  sends_with_key c
    (GetWallets fmt StructToURLParams Marshal NewRequest_error Unmarshal Wallets c)
    (json_request "GET" (BaseUrl c ++ "/v1/account/balances") "")
  /\ (forall clientOrderId : string,
        sends_with_key c
          (CancelOrder fmt StructToURLParams Marshal NewRequest_error Unmarshal
                       CancelOrderResponse c clientOrderId)
          (json_request "DELETE"
             (BaseUrl c ++ "/v1/account/orders?clientOrderId=" ++ clientOrderId) ""))
  /\ (forall symbol : string,
        sends_with_key c
          (GetOpenOrders fmt StructToURLParams Marshal NewRequest_error Unmarshal
                         OpenOrdersResponse c symbol)
          (json_request "GET"
             (if String.eqb symbol "" then BaseUrl c ++ "/v1/account/openOrders"
              else BaseUrl c ++ "/v1/account/openOrders?symbol=" ++ symbol) ""))
  /\ (forall clientOrderId : string,
        sends_with_key c
          (GetOrderStatus fmt StructToURLParams Marshal NewRequest_error Unmarshal
                          BaseOrderResponse c clientOrderId)
          (json_request "GET" (BaseUrl c ++ "/v1/account/orders/" ++ clientOrderId) "")
        /\ (clientOrderId = "" ->
            rp_calls (GetOrderStatus fmt StructToURLParams Marshal NewRequest_error
                                     Unmarshal BaseOrderResponse c clientOrderId) = []))
  /\ (forall (params : CreateOrderParams) (q : HttpRequest),
        q ∈ rp_calls (CreateOrder fmt StructToURLParams Marshal NewRequest_error Unmarshal
                                  BaseOrderResponse c params) ->
        exists reqBody : string,
          Marshal CreateOrderParams params = inl reqBody
          /\ q = with_key c (json_request "POST" (BaseUrl c ++ "/v1/account/orders") reqBody)
          /\ ApiKey c <> "")
  /\ (forall (params : UserTradesParams) (q : HttpRequest),
        q ∈ rp_calls (GetUserTrades fmt StructToURLParams Marshal NewRequest_error Unmarshal
                                    UserTradesResponse c params) ->
        exists urlParams : string,
          StructToURLParams UserTradesParams params = inl urlParams
          /\ q = with_key c
                   (json_request "GET" (BaseUrl c ++ "/v1/account/trades?" ++ urlParams) "")
          /\ ApiKey c <> "").
Proof.
  split; [intros q Hq; by apply ApiRequest_sent_with_key in Hq|].
  split; [intros clientOrderId q Hq; by apply ApiRequest_sent_with_key in Hq|].
  split.
  { intros symbol q Hq. unfold GetOpenOrders in Hq.
    destruct (String.eqb symbol ""); simpl in Hq;
      by apply ApiRequest_sent_with_key in Hq. }
  split.
  { intros clientOrderId. unfold GetOrderStatus.
    destruct (String.eqb_spec clientOrderId "") as [->|Hne].
    - split; [|reflexivity]. intros q Hq. simpl in Hq. by apply elem_of_nil in Hq.
    - split; [|contradiction].
      intros q Hq. by apply ApiRequest_sent_with_key in Hq. }
  split.
  { intros params q Hq. unfold CreateOrder in Hq.
    rewrite (proj1 (reply_of_calls _)) in Hq.
    apply ApiRequest_sent in Hq as (url' & reqBody & Hp & Hb & -> & Hk).
    unfold prepare_parameters in Hp. simpl in Hp. injection Hp as <-.
    unfold prepare_body in Hb. simpl in Hb.
    destruct (Marshal CreateOrderParams params) as [bytes|]; [|discriminate].
    injection Hb as <-. exists bytes. auto. }
  intros params q Hq. unfold GetUserTrades in Hq.
  rewrite (proj1 (reply_of_calls _)) in Hq.
  apply ApiRequest_sent in Hq as (url' & reqBody & Hp & Hb & -> & Hk).
  unfold prepare_body in Hb. simpl in Hb. injection Hb as <-.
  unfold prepare_parameters in Hp. simpl in Hp.
  destruct (StructToURLParams UserTradesParams params) as [urlParams|]; [|discriminate].
  injection Hp as <-. exists urlParams. split; [reflexivity|]. split; [|auto].
  unfold createApiURI. by rewrite append_assoc.
Qed.

(** X15: each of the ten endpoints returns nil for the result whenever
    it returns an error, and a result only after one answer of the transport
    with a status from 200 to 299 whose body the decoder took without
    error. *)
Theorem endpoint_results_from_success
    (MarketInformation Depth AllDepths Trades Wallets : Type)
    (BaseOrderResponse CancelOrderResponse OpenOrdersResponse UserTradesResponse : Type)
    (c : Client) :
  from_successful_response Unmarshal c
    (GetMarketsInfo fmt StructToURLParams Marshal NewRequest_error Unmarshal
                    MarketInformation c)
  /\ (forall symbol : string,
        from_successful_response Unmarshal c
          (GetOrderBook fmt StructToURLParams Marshal NewRequest_error Unmarshal Depth
                        c symbol))
  /\ from_successful_response Unmarshal c
       (GetAllOrderBooks fmt StructToURLParams Marshal NewRequest_error Unmarshal
                         AllDepths c)
  /\ (forall symbol : string,
        from_successful_response Unmarshal c
          (GetRecentTrades fmt StructToURLParams Marshal NewRequest_error Unmarshal Trades
                           c symbol))
  /\ from_successful_response Unmarshal c
       (GetWallets fmt StructToURLParams Marshal NewRequest_error Unmarshal Wallets c)
  /\ (forall params : CreateOrderParams,
        from_successful_response Unmarshal c
          (CreateOrder fmt StructToURLParams Marshal NewRequest_error Unmarshal
                       BaseOrderResponse c params))
  /\ (forall clientOrderId : string,
        from_successful_response Unmarshal c
          (CancelOrder fmt StructToURLParams Marshal NewRequest_error Unmarshal
                       CancelOrderResponse c clientOrderId))
  /\ (forall symbol : string,
        from_successful_response Unmarshal c
          (GetOpenOrders fmt StructToURLParams Marshal NewRequest_error Unmarshal
                         OpenOrdersResponse c symbol))
  /\ (forall clientOrderId : string,
        from_successful_response Unmarshal c
          (GetOrderStatus fmt StructToURLParams Marshal NewRequest_error Unmarshal
                          BaseOrderResponse c clientOrderId))
  /\ (forall params : UserTradesParams,
        from_successful_response Unmarshal c
          (GetUserTrades fmt StructToURLParams Marshal NewRequest_error Unmarshal
                         UserTradesResponse c params)).
Proof.
  split; [apply ApiRequest_result|].
  split; [intros symbol; apply ApiRequest_result|].
  split; [apply ApiRequest_result|].
  split; [intros symbol; apply ApiRequest_result|].
  split; [apply ApiRequest_result|].
  split; [intros params; apply ApiRequest_result|].
  split; [intros clientOrderId; apply ApiRequest_result|].
  split; [intros symbol; apply ApiRequest_result|].
  split; [|intros params; apply ApiRequest_result].
  intros clientOrderId. unfold GetOrderStatus.
  destruct (String.eqb clientOrderId ""); [|apply ApiRequest_result].
  split; [reflexivity|discriminate].
Qed.

End EndpointFacts.

Lemma private_endpoints_need_key_witness :
  refused_without_call
    (GetWallets (fun s => s) encode_nothing encode_nothing any_request decode_nothing
                unit (client_of (answering 200 "{}") "")).
Proof.
  apply (private_endpoints_need_key (fun s => s) encode_nothing encode_nothing any_request
           decode_nothing unit unit unit unit unit (client_of (answering 200 "{}") "")).
  reflexivity.
Defined.

(** X16: NewClient never fails.  The client has the ApiKey of the options,
    the transport of the options when they hold one, a BaseUrl that is not
    empty (the one of the options, or https://api.wallex.ir when that is
    empty) and an empty Version, whatever the options give as Version. *)
Theorem NewClient_fields (http_Client : Z -> HttpRequest -> HttpResponse + error)
    (opts : ClientOptions) :
  snd (NewClient http_Client opts) = None
  /\ ApiKey (fst (NewClient http_Client opts)) = opt_ApiKey opts
  /\ BaseUrl (fst (NewClient http_Client opts)) <> ""
  /\ (opt_BaseUrl opts <> "" ->
      BaseUrl (fst (NewClient http_Client opts)) = opt_BaseUrl opts)
  /\ (opt_BaseUrl opts = "" ->
      BaseUrl (fst (NewClient http_Client opts)) = "https://api.wallex.ir")
  /\ Version (fst (NewClient http_Client opts)) = ""
  /\ (forall h, opt_HttpClient opts = Some h ->
                HttpClient (fst (NewClient http_Client opts)) = h).
Proof.
  unfold NewClient. simpl.
  split; [reflexivity|]. split; [reflexivity|].
  destruct (String.eqb_spec (opt_BaseUrl opts) "") as [He|Hne]; simpl.
  - split; [discriminate|]. split; [contradiction|]. split; [reflexivity|].
    split; [reflexivity|]. intros h ->. reflexivity.
  - split; [exact Hne|]. split; [reflexivity|]. split; [contradiction|].
    split; [reflexivity|]. intros h ->. reflexivity.
Qed.

(** ** Request: the destination and the status of an APIError *)

Section RequestOutcomes.

Variable fmt : string -> string.
Variable B : Type.
Variable StructToURLParams : B -> string + error.
Variable Marshal : B -> string + error.
Variable NewRequest_error : string -> string -> option error.
Variable D : Type.
Variable Unmarshal : string -> D -> D * option error.

(** X17: unless Request fails at the stage parsing response, an error
    leaves the destination as it was: nothing is decoded into it before the
    response is known to be of the success class. *)
Theorem destination_untouched_on_error (c : Client) (method url : string) (auth : bool)
    (body : option B) (result : option D) (e : error) :
  out_err (Request fmt B StructToURLParams Marshal NewRequest_error D Unmarshal
                   c method url auth body result) = Some e ->
  (forall r : RequestError, e = RequestErrorPtr r -> re_Operation r <> "parsing response") ->
  out_result (Request fmt B StructToURLParams Marshal NewRequest_error D Unmarshal
                      c method url auth body result) = result.
Proof.
  unfold Request.
  destruct (prepare_parameters _ _ _ _ _) as [url'|err]; [|reflexivity].
  destruct (prepare_body _ _ _ _) as [reqBody|err]; [|reflexivity].
  destruct (NewRequest _ _ _ _) as [req|err]; [|reflexivity].
  destruct (attach_credential _ _ _) as [req1|err]; [|reflexivity].
  destruct (HttpClient c req1) as [resp|err]; [|reflexivity].
  destruct (resp_Body resp) as [respBody|err]; [|reflexivity].
  destruct ((resp_StatusCode resp <? 200) || (300 <=? resp_StatusCode resp));
    [reflexivity|].
  destruct result as [dst|]; [|reflexivity].
  destruct (Unmarshal respBody dst) as [dst' [err|]]; [|discriminate].
  simpl. intros [= <-] Hstage. now destruct (Hstage _ eq_refl).
Qed.

(** X18: an APIError that Request returns was built by parseErrorResponse
    from an answer of the transport, and its StatusCode is the status of that
    answer, outside 200..299. *)
Theorem APIError_status_outside_success (c : Client) (method url : string) (auth : bool)
    (body : option B) (result : option D) (a : APIError) :
  out_err (Request fmt B StructToURLParams Marshal NewRequest_error D Unmarshal
                   c method url auth body result) = Some (APIErrorPtr a) ->
  (api_StatusCode a < 200 \/ 299 < api_StatusCode a)
  /\ exists (req : HttpRequest) (resp : HttpResponse) (respBody : string),
       out_calls (Request fmt B StructToURLParams Marshal NewRequest_error D Unmarshal
                          c method url auth body result) = [req]
       /\ HttpClient c req = inl resp
       /\ resp_Body resp = inl respBody
       /\ api_StatusCode a = resp_StatusCode resp
       /\ a = parseErrorResponse fmt (resp_StatusCode resp) respBody.
Proof.
  unfold Request.
  destruct (prepare_parameters _ _ _ _ _) as [url'|err] eqn:Hp.
  2:{ intros [= ->]. apply prepare_parameters_error in Hp as [cause Hp]. discriminate. }
  destruct (prepare_body _ _ _ _) as [reqBody|err] eqn:Hb.
  2:{ intros [= ->]. apply prepare_body_error in Hb as [cause Hb]. discriminate. }
  destruct (NewRequest _ _ _ _) as [req|err]; [|discriminate].
  destruct (attach_credential _ _ _) as [req1|err] eqn:Ha.
  2:{ intros [= ->]. unfold attach_credential in Ha. destruct auth; [|discriminate].
      destruct (assertAuth c); discriminate. }
  destruct (HttpClient c req1) as [resp|err] eqn:Hdo; [|discriminate].
  destruct (resp_Body resp) as [respBody|err] eqn:Hbody; [|discriminate].
  destruct ((resp_StatusCode resp <? 200) || (300 <=? resp_StatusCode resp)) eqn:Hs.
  - intros [= <-]. unfold parseErrorResponse at 1 2. rewrite StatusCode_of_normalize.
    split.
    + apply orb_true_iff in Hs as [Hs|Hs]; [left; lia|right; lia].
    + exists req1, resp, respBody. repeat split; auto.
      unfold parseErrorResponse. by rewrite StatusCode_of_normalize.
  - destruct result as [dst|]; [|discriminate].
    destruct (Unmarshal respBody dst) as [dst' [err|]]; discriminate.
Qed.

End RequestOutcomes.

Lemma destination_untouched_on_error_witness :
  out_result (Request (fun s => s) string copy_payload copy_payload any_request string
                      keep_json (client_of (answering 404 "not found") "")
                      "GET" "https://api.wallex.ir/v1/markets" false None (Some "before"))
  = Some "before".
Proof.
  apply (destination_untouched_on_error (fun s => s) string copy_payload copy_payload
           any_request string keep_json (client_of (answering 404 "not found") "")
           "GET" "https://api.wallex.ir/v1/markets" false None (Some "before")
           (APIErrorPtr (parseErrorResponse (fun s => s) 404 "not found"))).
  - reflexivity.
  - intros r Hr. discriminate Hr.
Defined.

Lemma APIError_status_outside_success_witness :
  api_StatusCode (parseErrorResponse (fun s => s) 404 "not found") < 200
  \/ 299 < api_StatusCode (parseErrorResponse (fun s => s) 404 "not found").
Proof.
  apply (APIError_status_outside_success (fun s => s) string copy_payload copy_payload
           any_request string keep_json (client_of (answering 404 "not found") "")
           "GET" "https://api.wallex.ir/v1/markets" false None None
           (parseErrorResponse (fun s => s) 404 "not found")).
  reflexivity.
Defined.
